(** * ur5controller: the [UR5_Robot] helper class

    A shallow embedding of [pythonsrc/ur5_robot/ur5_robot.py].  The class is
    glue around an external robotics framework: every method is a short
    sequence of framework calls guarded by two checks.  The embedding keeps

    - Python numbers as they are at run time: an [int] is a [Z], a [float]
      is an IEEE 754 binary64 value (Rocq's primitive [float]);
    - the robot object as a record that is threaded through every method,
      together with the ordered list of framework calls made so far;
    - exceptions as a result type: a method returns a value or raises, and
      what was done before the raise stays done. *)

From Stdlib Require Import ZArith Floats String Lia.
From stdpp Require Import base list.

Set Warnings "-inexact-float".
Local Open Scope Z_scope.

(** ** Python numbers *)

Module PyNum.

Inductive pynum : Type :=
| PyInt (z : Z)
| PyFloat (f : float).

(** [float(z)]: the binary64 value nearest to the integer [z], ties to
    even.  Exact whenever [|z| < 2^53], which covers every integer this
    file converts (255 and command values already checked to lie in
    [0, 255]). *)
Definition float_of_int (z : Z) : float :=
  SF2Prim (binary_normalize prec emax z 0 false).

Definition to_float (v : pynum) : float :=
  match v with
  | PyInt z => float_of_int z
  | PyFloat f => f
  end.

(** [a < b] and [a > b].  Two ints compare as integers.  As soon as a
    float is involved Python compares by value; the int operands met in
    this file are the literals 0 and 255, which convert exactly, so the
    comparison of the converted operands gives the same answer.  Any
    comparison with a NaN is [False]. *)
Definition py_lt (a b : pynum) : bool :=
  match a, b with
  | PyInt x, PyInt y => x <? y
  | _, _ => PrimFloat.ltb (to_float a) (to_float b)
  end.

Definition py_gt (a b : pynum) : bool := py_lt b a.

Definition py_le (a b : pynum) : bool :=
  match a, b with
  | PyInt x, PyInt y => x <=? y
  | _, _ => PrimFloat.leb (to_float a) (to_float b)
  end.

(** [abs(v)] keeps the type of its argument. *)
Definition py_abs (v : pynum) : pynum :=
  match v with
  | PyInt z => PyInt (Z.abs z)
  | PyFloat f => PyFloat (PrimFloat.abs f)
  end.

End PyNum.
Export PyNum.

(** ** Exceptions and results *)

Inductive PyExc : Type :=
| Exception (msg : string)
| ValueError (msg : string)
| IndexError
| AttributeError (attr : string).

Inductive Result (A : Type) : Type :=
| Return (a : A)
| Raise (e : PyExc).
Arguments Return {A} a.
Arguments Raise {A} e.

(** ** The framework seen from the class

    Framework objects are opaque handles.  Every call into the framework
    (and [time.sleep]) is recorded, in program order. *)

Inductive Controller : Type := controller_handle (id : nat).
Inductive KinBody : Type := kinbody_handle (id : nat).
Inductive Trajectory : Type := trajectory_handle (id : nat).

Inductive Call : Type :=
| CGetEnv
| CRaveCreateMultiController
| CSetController
| CGetManipulators
| CSetActiveManipulator
| CSetChuckingDirection (direction : list float)
| CSetLocalToolDirection (direction : list float)
| CInverseKinematicsModel
| CIkLoad
| CRaveLogInfo (msg : string)
| CIkAutogenerate
| CTaskManipulation
| CBaseManipulation
| CGetDOFValues
| CSetDOFValues (values : list float)
| CGetController
| CSetDesired (values : list float)
| CSetPath (trajectory : Trajectory)
| CWaitForController (timeout : Z)
| CSleep (seconds : Z)
| CReleaseFingers (target : option KinBody)
| CCloseFingers
| CRelease (body : KinBody)
| CRaveCreateController (name : string)
| CAttachController (controller : Controller) (dof_indices : list Z)
                    (nControlTransformation : Z).

(** What a multicontroller holds: the controllers attached so far. *)
Definition Attachment : Type := (Controller * list Z * Z)%type.

(** The object.  [multicontroller] is an attribute that [__init__] assigns
    on one branch only; [None] stands for "attribute never assigned".
    [DOFValues] is the joint vector held by the framework, [calls] the
    framework calls made so far, oldest first. *)
Record UR5_Robot : Type := mkRobot {
  is_in_simulation : bool;
  _has_gripper : bool;
  multicontroller : option (list Attachment);
  DOFValues : list float;
  calls : list Call
}.

(** The two constants [__init__] stores on the object; no method assigns
    them again. *)
Definition _OPENRAVE_GRIPPER_MAX_VALUE : float := 0.715584844%float.
Definition _ROBOT_GRIPPER_MAX_VALUE : Z := 255.

Definition no_gripper_msg : string :=
  "You are trying to use a gripper function while a gripper is not available on your UR5 robot.".

(** ** The method monad: state and exceptions *)

Definition M (A : Type) : Type := UR5_Robot -> Result A * UR5_Robot.

Definition ret {A} (a : A) : M A := fun r => (Return a, r).

Definition raise {A} (e : PyExc) : M A := fun r => (Raise e, r).

Definition bind {A B} (m : M A) (k : A -> M B) : M B :=
  fun r =>
    match m r with
    | (Return a, r') => k a r'
    | (Raise e, r') => (Raise e, r')
    end.

Notation "x <- m ;; k" := (bind m (fun x => k))
  (at level 100, m at next level, right associativity).
Notation "m ;;; k" := (bind m (fun _ => k))
  (at level 100, right associativity).

(** Recording a framework call. *)
Definition call (c : Call) : M unit :=
  fun r => (Return tt,
            mkRobot (is_in_simulation r) (_has_gripper r) (multicontroller r)
                    (DOFValues r) (calls r ++ [c])).

(** [self.GetDOFValues()] hands out a fresh array holding the joint values. *)
Definition GetDOFValues : M (list float) :=
  call CGetDOFValues ;;; fun r => (Return (DOFValues r), r).

(** [self.SetDOFValues(values)] replaces the joint values; the framework
    is taken to store them as given. *)
Definition SetDOFValues (values : list float) : M unit :=
  call (CSetDOFValues values) ;;;
  fun r => (Return tt,
            mkRobot (is_in_simulation r) (_has_gripper r) (multicontroller r)
                    values (calls r)).

(** Array indexing, [a[i]] and [a[i] = x]: a negative index counts from
    the end, an index out of range raises [IndexError]. *)
Definition py_index (len : nat) (i : Z) : option nat :=
  let j := if i <? 0 then i + Z.of_nat len else i in
  if (0 <=? j) && (j <? Z.of_nat len) then Some (Z.to_nat j) else None.

Definition getitem (a : list float) (i : Z) : M float :=
  match py_index (length a) i with
  | Some n =>
      match a !! n with
      | Some x => ret x
      | None => raise IndexError
      end
  | None => raise IndexError
  end.

Definition setitem (a : list float) (i : Z) (x : float) : M (list float) :=
  match py_index (length a) i with
  | Some n => ret (<[n:=x]> a)
  | None => raise IndexError
  end.

(** Reading [self]. *)
Definition get : M UR5_Robot := fun r => (Return r, r).

Definition set_multicontroller (attached : list Attachment) : M unit :=
  fun r => (Return tt,
            mkRobot (is_in_simulation r) (_has_gripper r) (Some attached)
                    (DOFValues r) (calls r)).

(** ** The class *)

Module UR5.

Definition ik_patience_msg : string :=
  "The IKModel for UR5 robot is now being generated. Please be patient, this will take a while (sometimes up to 30 minutes)...".

(** The body of [__init__], run on an object whose two flags are already
    bound to the arguments.  [ik_loaded] is what [self.ikmodel.load()]
    answers. *)
Definition init_body (ik_loaded : bool) : M unit :=
  self <- get ;;
  (if negb (is_in_simulation self)
   then (call CGetEnv ;;; call CRaveCreateMultiController ;;;
         set_multicontroller [] ;;; call CSetController)
   else ret tt) ;;;
  call CGetManipulators ;;;
  call CSetActiveManipulator ;;;
  (if _has_gripper self
   then (call (CSetChuckingDirection [1.0%float]) ;;;
         call (CSetLocalToolDirection [1.0%float; 0%float; 0%float]))
   else ret tt) ;;;
  call CInverseKinematicsModel ;;;
  call CIkLoad ;;;
  (if negb ik_loaded
   then (call (CRaveLogInfo ik_patience_msg) ;;; call CIkAutogenerate)
   else ret tt) ;;;
  call CTaskManipulation ;;;
  call CBaseManipulation.

(** [UR5_Robot.__init__(self, is_in_simulation, has_gripper)] on a
    framework robot whose joint values are [joints]. *)
Definition __init__ (joints : list float) (ik_loaded : bool)
    (is_in_simulation has_gripper : bool) : UR5_Robot :=
  snd (init_body ik_loaded
         (mkRobot is_in_simulation has_gripper None joints [])).

Definition is_gripper_fully_open : M bool :=
  self <- get ;;
  if negb (_has_gripper self) then raise (Exception no_gripper_msg) else
  dof_values <- GetDOFValues ;;
  x <- getitem dof_values 3 ;;
  ret (x =? 0)%float.

Definition is_gripper_fully_closed : M bool :=
  self <- get ;;
  if negb (_has_gripper self) then raise (Exception no_gripper_msg) else
  dof_values <- GetDOFValues ;;
  x <- getitem dof_values 3 ;;
  ret (abs (x - _OPENRAVE_GRIPPER_MAX_VALUE) <=? 0.00001)%float.

(** [multicontroller.AttachController(controller, dof_indices, n)]. *)
Definition AttachController (attached : list Attachment)
    (controller : Controller) (dof_indices : list Z) (n : Z) : M unit :=
  call (CAttachController controller dof_indices n) ;;;
  set_multicontroller (attached ++ [(controller, dof_indices, n)]).

Section Framework.

(** What the framework's [RaveCreateController(env, name)] answers: a
    controller, or [None] when no plugin provides one. *)
Variable RaveCreateController : string -> option Controller.

(** Reading [self.multicontroller] on an object that never got the
    attribute raises [AttributeError]. *)
Definition attach_controller (name : string) (dof_indices : list Z)
    : M bool :=
  call CGetEnv ;;;
  call (CRaveCreateController name) ;;;
  match RaveCreateController name with
  | Some controller =>
      self <- get ;;
      match multicontroller self with
      | Some attached =>
          AttachController attached controller dof_indices 0 ;;;
          ret true
      | None => raise (AttributeError "multicontroller")
      end
  | None => ret false
  end.

End Framework.

(** The conversion of [set_gripper_openning], its local [model_value]. *)
Definition model_value (value : pynum) : float :=
  (_OPENRAVE_GRIPPER_MAX_VALUE
   / float_of_int _ROBOT_GRIPPER_MAX_VALUE
   * to_float (py_abs value))%float.

Definition set_gripper_openning (value : pynum) : M unit :=
  self <- get ;;
  if negb (_has_gripper self) then raise (Exception no_gripper_msg) else
  if py_lt value (PyInt 0) || py_gt value (PyInt 255)
  then raise (ValueError "Gripper value should be between 0 and 255.") else
  let model_value := model_value value in
  dof_values <- GetDOFValues ;;
  dof_values <- setitem dof_values 3 model_value ;;
  call CGetController ;;;
  call (CSetDesired dof_values) ;;;
  call (CWaitForController 0) ;;;
  call (CSleep 2).

Definition _set_dof_value (index : Z) (value : float) : M unit :=
  dof_values <- GetDOFValues ;;
  dof_values <- setitem dof_values index value ;;
  SetDOFValues dof_values.

(** [if kinbody is not None: self.Release(kinbody)]. *)
Definition Release (kinbody : option KinBody) : M unit :=
  match kinbody with
  | Some body => call (CRelease body)
  | None => ret tt
  end.

Definition open_gripper (kinbody : option KinBody) (execute : bool)
    : M unit :=
  self <- get ;;
  if negb (_has_gripper self) then raise (Exception no_gripper_msg) else
  if negb execute then
    _set_dof_value 3 0.0%float ;;;
    Release kinbody
  else
  if is_in_simulation self then
    call (CReleaseFingers kinbody) ;;;
    call (CWaitForController 0)
  else
    set_gripper_openning (PyInt 0) ;;;
    Release kinbody.

Definition close_gripper (execute : bool) : M unit :=
  self <- get ;;
  if negb (_has_gripper self) then raise (Exception no_gripper_msg) else
  if negb execute then
    _set_dof_value 3 _OPENRAVE_GRIPPER_MAX_VALUE
  else
  if is_in_simulation self then
    call CCloseFingers ;;;
    call (CWaitForController 0)
  else
    set_gripper_openning (PyInt 255).

Definition execute_trajectory_and_wait_for_controller
    (trajectory : Trajectory) : M unit :=
  call CGetController ;;;
  call (CSetPath trajectory) ;;;
  call (CWaitForController 0) ;;;
  call (CSleep 2).

End UR5.


(** ** Vocabulary of the statements *)

(** The object after the framework calls [cs] were added to its record of
    calls, everything else untouched. *)
Definition log_calls (cs : list Call) (r : UR5_Robot) : UR5_Robot :=
  mkRobot (is_in_simulation r) (_has_gripper r) (multicontroller r)
          (DOFValues r) (calls r ++ cs).

(** The object after its joint values were replaced. *)
Definition with_DOFValues (values : list float) (r : UR5_Robot) : UR5_Robot :=
  mkRobot (is_in_simulation r) (_has_gripper r) (multicontroller r)
          values (calls r).

(** Commands sent to the controller, waits and sleeps. *)
Definition is_controller_command (c : Call) : bool :=
  match c with
  | CSetDesired _ | CSetPath _ => true
  | _ => false
  end.

Definition is_synchronisation (c : Call) : bool :=
  match c with
  | CWaitForController _ | CSleep _ => true
  | _ => false
  end.

(** The list of calls starts with [WaitForController(0)] and then
    [time.sleep(2)]. *)
Definition starts_with_wait_and_sleep (cs : list Call) : bool :=
  match cs with
  | CWaitForController timeout :: CSleep seconds :: _ =>
      (timeout =? 0) && (seconds =? 2)
  | _ => false
  end.

(** In a list of calls, every controller command is directly followed by
    [WaitForController(0)] and then [time.sleep(2)]. *)
Fixpoint commands_synchronised (cs : list Call) : bool :=
  match cs with
  | [] => true
  | c :: rest =>
      (if is_controller_command c then starts_with_wait_and_sleep rest
       else true)
      && commands_synchronised rest
  end.

(** A method keeps the controller synchronised when, from any state, the
    calls it adds to the record satisfy [commands_synchronised]; this holds
    of runs that return and of runs that raise. *)
Definition synchronised {A : Type} (m : M A) : Prop :=
  forall r : UR5_Robot,
  exists new : list Call,
    calls (snd (m r)) = calls r ++ new /\ commands_synchronised new = true.

(** The linear map of the specification, [0.715584844 / 255 * v], in
    binary64 arithmetic. *)
Definition spec_linear_map (v : pynum) : float :=
  (0.715584844 / 255 * to_float v)%float.

(** The command range, [0 <= v <= 255]. *)
Definition in_command_range (v : pynum) : bool :=
  py_le (PyInt 0) v && py_le v (PyInt 255).

(** The joint range of the gripper, [0 <= x <= 0.715584844]. *)
Definition in_joint_range (x : float) : bool :=
  ((0 <=? x) && (x <=? _OPENRAVE_GRIPPER_MAX_VALUE))%float.

(** What is known of a shift record of the rounding algorithm after [k]
    right shifts of the mantissa [M]: the mantissa left is the quotient,
    and no bit is remembered as lost when none was. *)
Definition shifted (M k : Z) (mrs : shr_record) : Prop :=
  shr_m mrs = M / 2 ^ k /\
  (M mod 2 ^ k = 0 -> shr_r mrs = false /\ shr_s mrs = false).

(** A hardware robot and a simulated one, both with a gripper and seven
    joints at rest, and a framework that can create any controller. *)
Definition rest_joints : list float :=
  [0; 0; 0; 0; 0; 0; 0]%float.

Definition hardware_robot : UR5_Robot := UR5.__init__ rest_joints true false true.

Definition simulated_robot : UR5_Robot := UR5.__init__ rest_joints true true true.

Definition bare_robot : UR5_Robot := UR5.__init__ rest_joints true false false.

Definition any_controller (name : string) : option Controller :=
  Some (controller_handle 0).

Definition no_controller (name : string) : option Controller := None.

(** ** Vocabulary of the further properties *)

(** What a method leaves as it found it: the two flags, the
    multicontroller, the joint values. *)
Definition same_flags (r r' : UR5_Robot) : Prop :=
  is_in_simulation r' = is_in_simulation r /\ _has_gripper r' = _has_gripper r.

Definition same_multicontroller (r r' : UR5_Robot) : Prop :=
  multicontroller r' = multicontroller r.


(** A method keeps the relation [R] when every run, returning or raising,
    ends in a state related to the one it started from. *)
Definition keeps {A : Type} (R : UR5_Robot -> UR5_Robot -> Prop) (m : M A)
    : Prop :=
  forall r : UR5_Robot, R r (snd (m r)).


(** The position Python reads for the index [i] of an array of [len]
    elements, when [-len <= i < len]. *)
Definition position (len : nat) (i : Z) : nat :=
  Z.to_nat (i mod Z.of_nat len).

(** The two tests of the gripper state, on a joint value. *)
Definition fully_open_test (d : float) : bool := (d =? 0)%float.

Definition fully_closed_test (d : float) : bool :=
  (abs (d - _OPENRAVE_GRIPPER_MAX_VALUE) <=? 0.00001)%float.

(** The calls of [if kinbody is not None: self.Release(kinbody)]. *)
Definition release_calls (kinbody : option KinBody) : list Call :=
  match kinbody with
  | Some body => [CRelease body]
  | None => []
  end.

(** A robot with a gripper whose joint vector is too short for index 3,
    and a framework that creates a different controller per name. *)
Definition short_robot : UR5_Robot :=
  UR5.__init__ [0; 0; 0]%float true false true.

Definition controller_by_name (name : string) : option Controller :=
  Some (controller_handle (String.length name)).

(** * Facts about binary64 arithmetic

    Derived from the specification of the primitive operations
    ([Prim2SF] and the [_spec] equations of the standard library). *)

Section SpecFloatFacts.

(** Shifting and rounding a mantissa that is not negative leaves it so;
    hence rounding never makes up a NaN. *)
Lemma shr_1_nonneg mrs : 0 <= shr_m mrs -> 0 <= shr_m (shr_1 mrs).
Proof.
  destruct mrs as [m r s]; simpl.
  destruct m as [|p|p]; [simpl; lia| |lia].
  destruct p; simpl; lia.
Qed.

Lemma iter_shr_1_nonneg p : forall mrs,
  0 <= shr_m mrs -> 0 <= shr_m (SpecFloat.iter_pos shr_1 p mrs).
Proof.
  induction p as [p IH|p IH|]; intros mrs H; simpl.
  - apply IH, IH, shr_1_nonneg, H.
  - apply IH, IH, H.
  - apply shr_1_nonneg, H.
Qed.

Lemma shr_nonneg mrs e n : 0 <= shr_m mrs -> 0 <= shr_m (fst (shr mrs e n)).
Proof.
  intros H. destruct n; simpl; auto using iter_shr_1_nonneg.
Qed.

Lemma shr_fexp_nonneg pr em m e l :
  0 <= m -> 0 <= shr_m (fst (shr_fexp pr em m e l)).
Proof.
  intros H. unfold shr_fexp. apply shr_nonneg.
  destruct l as [|[]]; simpl; exact H.
Qed.

Lemma round_nearest_even_nonneg m l : 0 <= m -> 0 <= round_nearest_even m l.
Proof.
  intros H. destruct l as [|[]]; simpl; try lia.
  destruct (Z.even m); lia.
Qed.

Lemma binary_round_aux_not_nan pr em s m e l :
  0 <= m -> binary_round_aux pr em s m e l <> S754_nan.
Proof.
  intros H. unfold binary_round_aux.
  pose proof (shr_fexp_nonneg pr em m e l H) as H1.
  destruct (shr_fexp pr em m e l) as [mrs' e']. simpl in H1.
  pose proof (shr_fexp_nonneg pr em _ e' loc_Exact
                (round_nearest_even_nonneg _ (loc_of_shr_record mrs') H1)) as H2.
  destruct (shr_fexp pr em _ e' loc_Exact) as [mrs'' e'']. simpl in H2.
  destruct (shr_m mrs'') as [|p|p]; [discriminate| |lia].
  destruct (e'' <=? em - pr); discriminate.
Qed.

(** The comparison of the specification: reflexive off NaN, and
    antisymmetric. *)
Lemma SFcompare_refl x : x <> S754_nan -> SFcompare x x = Some Eq.
Proof.
  destruct x as [s|s|  |s m e]; intros H; simpl; try congruence.
  - destruct s; reflexivity.
  - destruct s; rewrite Z.compare_refl, Pos.compare_cont_refl; reflexivity.
Qed.

Lemma SFcompare_antisym x y :
  SFcompare y x = option_map CompOpp (SFcompare x y).
Proof.
  destruct x as [s|s|  |s m e], y as [s'|s'|  |s' m' e']; simpl;
    try reflexivity; try (destruct s; reflexivity); try (destruct s'; reflexivity);
    try (destruct s, s'; reflexivity).
  pose proof (Pos.compare_cont_antisym m m' Eq) as Hm. simpl in Hm.
  pose proof (Pos.compare_cont_antisym m' m Eq) as Hm'. simpl in Hm'.
  destruct s, s'; try reflexivity.
  all: rewrite (BinInt.Z.compare_antisym e e').
  all: destruct (e ?= e') eqn:E; simpl; try reflexivity.
  all: f_equal; rewrite ?CompOpp_involutive.
  - exact Hm'.
  - symmetry; exact Hm.
Qed.

End SpecFloatFacts.

(** ** Rounding to nearest and order

    [binary_round_aux] shifts the mantissa right until the exponent is the
    one of the format, rounds to nearest even, and shifts once more if the
    rounding carried.  The lemmas below follow the shifted mantissa and
    the bits that fall off. *)

Section Rounding.

Lemma digits2_pos_bounds (m : positive) :
  2 ^ (Zpos (digits2_pos m) - 1) <= Zpos m < 2 ^ Zpos (digits2_pos m).
Proof.
  induction m as [p IH|p IH|]; cbn [digits2_pos].
  - rewrite Pos2Z.inj_succ, Z.pow_succ_r by lia.
    replace (Z.succ (Zpos (digits2_pos p)) - 1) with (Z.succ (Zpos (digits2_pos p) - 1)) by lia.
    rewrite Z.pow_succ_r by lia. lia.
  - rewrite Pos2Z.inj_succ, Z.pow_succ_r by lia.
    replace (Z.succ (Zpos (digits2_pos p)) - 1) with (Z.succ (Zpos (digits2_pos p) - 1)) by lia.
    rewrite Z.pow_succ_r by lia. lia.
  - simpl. lia.
Qed.

Lemma shifted_0 (M : Z) : shifted M 0 (Build_shr_record M false false).
Proof. split; simpl; [now rewrite Z.div_1_r | auto]. Qed.

Lemma shr_1_fields (mrs : shr_record) :
  0 <= shr_m mrs ->
  shr_m (shr_1 mrs) = shr_m mrs / 2 /\
  shr_r (shr_1 mrs) = Z.odd (shr_m mrs) /\
  shr_s (shr_1 mrs) = shr_r mrs || shr_s mrs.
Proof.
  destruct mrs as [m r s]; simpl. intros Hm.
  destruct m as [|p|p]; [easy| |lia].
  destruct p as [p|p|]; simpl; repeat split.
  - rewrite Pos2Z.inj_xI. apply Z.div_unique with 1; lia.
  - rewrite Pos2Z.inj_xO. apply Z.div_unique with 0; lia.
Qed.

Lemma shifted_shr_1 (M k : Z) (mrs : shr_record) :
  0 <= M -> 0 <= k -> shifted M k mrs -> shifted M (k + 1) (shr_1 mrs).
Proof.
  intros HM Hk [Hm Hrs].
  assert (Hpos : 0 < 2 ^ k) by (apply Z.pow_pos_nonneg; lia).
  assert (Hm0 : 0 <= shr_m mrs) by (rewrite Hm; apply Z.div_pos; lia).
  destruct (shr_1_fields mrs Hm0) as (E1 & E2 & E3).
  assert (Hpow : 2 ^ (k + 1) = 2 ^ k * 2) by (rewrite Z.pow_add_r; lia).
  split.
  - rewrite E1, Hm, Hpow, Z.div_div by lia. reflexivity.
  - intros Hmod. rewrite Hpow in Hmod.
    assert (Hk0 : M mod 2 ^ k = 0).
    { rewrite Z.rem_mul_r in Hmod by lia. 
      pose proof (Z.mod_pos_bound M (2 ^ k) Hpos).
      pose proof (Z.mod_pos_bound (M / 2 ^ k) 2 ltac:(lia)). nia. }
    destruct (Hrs Hk0) as [Hr Hs]. rewrite E2, E3, Hr, Hs. split; [|reflexivity].
    rewrite Hm. rewrite Z.rem_mul_r in Hmod by lia.
    rewrite Hk0 in Hmod.
    assert (Hev : (M / 2 ^ k) mod 2 = 0) by nia.
    rewrite <- Z.negb_even. apply negb_false_iff, Z.even_spec.
    exists ((M / 2 ^ k) / 2). 
    pose proof (Z.div_mod (M / 2 ^ k) 2 ltac:(lia)). lia.
Qed.

Lemma shifted_iter (M : Z) (p : positive) : forall (k : Z) (mrs : shr_record),
  0 <= M -> 0 <= k -> shifted M k mrs ->
  shifted M (k + Zpos p) (SpecFloat.iter_pos shr_1 p mrs).
Proof.
  induction p as [p IH|p IH|]; intros k mrs HM Hk H; cbn [SpecFloat.iter_pos].
  - replace (k + Zpos p~1) with (((k + 1) + Zpos p) + Zpos p) by lia.
    apply IH; [lia|lia|]. apply IH; [lia|lia|]. now apply shifted_shr_1.
  - replace (k + Zpos p~0) with ((k + Zpos p) + Zpos p) by lia.
    apply IH; [lia|lia|]. now apply IH.
  - now apply shifted_shr_1.
Qed.

(** One [shr_fexp] from an exact location: the exponent reached and the
    mantissa left. *)
Lemma shr_fexp_exact (M e : Z) :
  0 <= M ->
  let n := Z.max 0 (fexp prec emax (Zdigits2 M + e) - e) in
  exists mrs : shr_record,
    shr_fexp prec emax M e loc_Exact = (mrs, e + n) /\ shifted M n mrs.
Proof.
  intros HM n. unfold shr_fexp, shr. cbn [shr_record_of_loc].
  subst n. destruct (fexp prec emax (Zdigits2 M + e) - e) as [|p|p] eqn:En.
  - eexists. split; [now rewrite Z.add_0_r | apply shifted_0].
  - eexists. split; [f_equal|].
    replace (Z.max 0 (Zpos p)) with (0 + Zpos p) by lia.
    apply shifted_iter; [lia|lia|apply shifted_0].
  - eexists. split; [now rewrite Z.add_0_r | apply shifted_0].
Qed.

Lemma round_nearest_even_shifted (M n Y : Z) (mrs : shr_record) :
  0 <= M -> 0 <= n -> shifted M n mrs -> M <= Y * 2 ^ n ->
  0 <= round_nearest_even (shr_m mrs) (loc_of_shr_record mrs) <= Y.
Proof.
  intros HM Hn [Hm Hrs] HY.
  assert (Hpos : 0 < 2 ^ n) by (apply Z.pow_pos_nonneg; lia).
  assert (Hfloor : 0 <= M / 2 ^ n) by (apply Z.div_pos; lia).
  pose proof (Z.div_mod M (2 ^ n) ltac:(lia)) as Hdm.
  pose proof (Z.mod_pos_bound M (2 ^ n) Hpos) as Hmod.
  assert (Hle : M / 2 ^ n <= Y) by nia.
  destruct (Z.eq_dec (M mod 2 ^ n) 0) as [H0|H0].
  - destruct (Hrs H0) as [Hr Hs]. destruct mrs as [m r s]; simpl in *.
    subst r s m. simpl. lia.
  - assert (Hlt : M / 2 ^ n < Y) by nia.
    destruct mrs as [m r s]; simpl in *. subst m.
    destruct r, s; simpl; try lia. destruct (Z.even (M / 2 ^ n)); lia.
Qed.


Lemma canonical_mantissa_digits (m : positive) (e : Z) :
  canonical_mantissa prec emax m e = true ->
  Zpos m < 2 ^ 53 /\ -1074 <= e /\ (-1074 < e -> 2 ^ 52 <= Zpos m).
Proof.
  unfold canonical_mantissa, fexp, emin, prec, emax. intros H%Z.eqb_eq.
  pose proof (digits2_pos_bounds m) as [Hlo Hhi].
  split; [|split].
  - eapply Z.lt_le_trans; [exact Hhi|]. apply Z.pow_le_mono_r; lia.
  - lia.
  - intros He. replace 52 with (Zpos (digits2_pos m) - 1) by lia. exact Hlo.
Qed.

(** Dividing by a power of two a number bounded by [c * 2 ^ a]. *)
Lemma div_pow2_le (x c a n : Z) :
  0 <= x -> 0 <= a <= n -> x <= c * 2 ^ a -> x / 2 ^ n <= c / 2 ^ (n - a).
Proof.
  intros Hx Ha Hle.
  assert (H1 : 0 < 2 ^ a) by (apply Z.pow_pos_nonneg; lia).
  assert (H2 : 0 < 2 ^ (n - a)) by (apply Z.pow_pos_nonneg; lia).
  replace n with (a + (n - a)) at 1 by lia.
  rewrite Z.pow_add_r, <- Z.div_div by lia.
  apply Z.div_le_mono; [lia|].
  apply Z.div_le_upper_bound; lia.
Qed.

(** Rounding to nearest never steps over a representable number: when the
    exact value [P * 2 ^ E] is at most the (canonical) binary64 number
    [mc * 2 ^ ec], so is the rounded value. *)
Lemma binary_round_aux_le (P : positive) (E : Z) (mc : positive) (ec : Z) :
  canonical_mantissa prec emax mc ec = true ->
  ec + 53 <= emax - prec ->
  E <= ec ->
  Zpos P <= Zpos mc * 2 ^ (ec - E) ->
  valid_binary (binary_round_aux prec emax false (Zpos P) E loc_Exact) = true ->
  SFleb (binary_round_aux prec emax false (Zpos P) E loc_Exact)
        (S754_finite false mc ec) = true.
Proof.
  intros Hc Hec HE HP.
  destruct (canonical_mantissa_digits mc ec Hc) as (Hmc & Hemin & _).
  unfold binary_round_aux.
  destruct (shr_fexp_exact (Zpos P) E ltac:(lia)) as (mrs1 & E1 & S1).
  rewrite E1. clear E1.
  set (n1 := Z.max 0 (fexp prec emax (Zdigits2 (Zpos P) + E) - E)) in *.
  assert (Hn1 : 0 <= n1) by lia.
  assert (He1 : E + n1 <= ec).
  { subst n1. unfold fexp, emin, prec, emax in *. cbn [Zdigits2].
    pose proof (digits2_pos_bounds P) as [Hlo _].
    destruct (Z_le_gt_dec (Zpos (digits2_pos P) + E - 53) ec) as [?|Hgt]; [lia|].
    exfalso.
    assert (2 ^ (53 + (ec - E)) <= 2 ^ (Zpos (digits2_pos P) - 1))
      by (apply Z.pow_le_mono_r; lia).
    rewrite Z.pow_add_r in * by lia.
    assert (0 < 2 ^ (ec - E)) by (apply Z.pow_pos_nonneg; lia). nia. }
  set (e1 := E + n1) in *.
  set (m1 := round_nearest_even (shr_m mrs1) (loc_of_shr_record mrs1)).
  assert (Hm1 : 0 <= m1 <= Zpos mc * 2 ^ (ec - e1)).
  { apply round_nearest_even_shifted with (M := Zpos P) (n := n1); try lia; auto.
    rewrite <- Z.mul_assoc, <- Z.pow_add_r by lia.
    replace (ec - e1 + n1) with (ec - E) by lia. exact HP. }
  destruct (shr_fexp_exact m1 e1 ltac:(lia)) as (mrs2 & E2 & [S2 _]).
  rewrite E2. clear E2.
  set (n2 := Z.max 0 (fexp prec emax (Zdigits2 m1 + e1) - e1)) in *.
  assert (Hn2 : 0 <= n2) by lia.
  rewrite S2.
  assert (Hpos2 : 0 < 2 ^ n2) by (apply Z.pow_pos_nonneg; lia).
  assert (Hm2 : 0 <= m1 / 2 ^ n2) by (apply Z.div_pos; lia).
  assert (Hover : ec < e1 + n2 -> m1 / 2 ^ n2 <= Zpos mc / 2 ^ (e1 + n2 - ec)).
  { intros Hlt. replace (e1 + n2 - ec) with (n2 - (ec - e1)) by lia.
    apply div_pow2_le; lia. }
  destruct (m1 / 2 ^ n2) as [|m2|m2] eqn:Em2; [reflexivity| |lia].
  destruct (e1 + n2 <=? emax - prec) eqn:Ee2.
  - cbn [valid_binary]. unfold bounded. intros [Hcan _]%andb_prop.
    destruct (canonical_mantissa_digits m2 _ Hcan) as (_ & _ & Hnorm).
    unfold SFleb, SFcompare.
    destruct (Z.compare_spec (e1 + n2) ec) as [Heq|Hlt|Hgt]; [|reflexivity|].
    + assert (Hle : Zpos m2 <= Zpos mc).
      { rewrite <- Em2. replace n2 with (ec - e1) by lia.
        apply Z.div_le_upper_bound; [apply Z.pow_pos_nonneg|]; lia. }
      change (PosDef.Pos.compare_cont Eq m2 mc) with (m2 ?= mc)%positive.
      destruct (Pos.compare_spec m2 mc); [reflexivity|reflexivity|lia].
    + exfalso. specialize (Hover Hgt). specialize (Hnorm ltac:(lia)).
      assert (Zpos mc / 2 ^ (e1 + n2 - ec) < 2 ^ 52); [|lia].
      apply Z.div_lt_upper_bound; [apply Z.pow_pos_nonneg; lia|].
      assert (2 ^ 1 <= 2 ^ (e1 + n2 - ec)) by (apply Z.pow_le_mono_r; lia).
      change (2 ^ 53) with (2 ^ 1 * 2 ^ 52) in Hmc. nia.
  - intros _. exfalso. apply Z.leb_gt in Ee2.
    specialize (Hover ltac:(lia)).
    assert (Zpos mc / 2 ^ (e1 + n2 - ec) = 0); [|lia].
    apply Z.div_small. split; [lia|].
    eapply Z.lt_le_trans; [exact Hmc|]. apply Z.pow_le_mono_r; lia.
Qed.

(** The sign of a rounded value is the sign it was given. *)
Lemma binary_round_aux_nonneg (P : positive) (E : Z) (l : location) :
  SFleb (S754_zero false)
        (binary_round_aux prec emax false (Zpos P) E l) = true.
Proof.
  unfold binary_round_aux.
  destruct (shr_fexp prec emax (Zpos P) E l) as [mrs1 e1] eqn:E1.
  destruct (shr_fexp prec emax _ e1 loc_Exact) as [mrs2 e2] eqn:E2.
  assert (H1 : 0 <= shr_m mrs1).
  { pose proof (shr_fexp_nonneg prec emax (Zpos P) E l ltac:(lia)) as H.
    now rewrite E1 in H. }
  assert (H2 : 0 <= shr_m mrs2).
  { pose proof (shr_fexp_nonneg prec emax _ e1 loc_Exact
                  (round_nearest_even_nonneg _ (loc_of_shr_record mrs1) H1)) as H.
    now rewrite E2 in H. }
  destruct (shr_m mrs2) as [|m2|m2]; [reflexivity| |lia].
  now destruct (e2 <=? emax - prec).
Qed.

End Rounding.

(** The same facts on primitive floats. *)
Lemma eqb_refl_not_nan (x : float) :
  Prim2SF x <> S754_nan -> (x =? x)%float = true.
Proof.
  intros H. rewrite FloatAxioms.eqb_spec. unfold SFeqb. rewrite SFcompare_refl; auto.
Qed.

Lemma leb_ltb_false (x y : float) :
  (x <=? y)%float = true -> (y <? x)%float = false.
Proof.
  rewrite FloatAxioms.leb_spec, FloatAxioms.ltb_spec. unfold SFleb, SFltb.
  rewrite (SFcompare_antisym (Prim2SF x) (Prim2SF y)).
  destruct (SFcompare (Prim2SF x) (Prim2SF y)) as [[]|]; simpl; congruence.
Qed.

(** A float in [0, 255] is a zero of either sign or a positive finite
    number. *)
Lemma in_range_cases (f : float) :
  (0 <=? f)%float = true -> (f <=? 255)%float = true ->
  f = 0%float \/ f = (-0)%float \/ exists m e, Prim2SF f = S754_finite false m e.
Proof.
  rewrite !FloatAxioms.leb_spec. intros H0 H1.
  destruct (Prim2SF f) as [s|s|  |s m e] eqn:E.
  - destruct s; [right; left | left]; apply Prim2SF_inj; rewrite E; reflexivity.
  - destruct s; discriminate.
  - discriminate.
  - destruct s; [discriminate|]. right; right; eauto.
Qed.

Lemma abs_finite_pos (f : float) (m : positive) (e : Z) :
  Prim2SF f = S754_finite false m e -> abs f = f.
Proof.
  intros E. apply Prim2SF_inj. rewrite abs_spec, E. reflexivity.
Qed.

Lemma mul_finite_not_nan (k f : float) (mk : positive) (ek : Z)
    (m : positive) (e : Z) :
  Prim2SF k = S754_finite false mk ek ->
  Prim2SF f = S754_finite false m e ->
  Prim2SF (k * f) <> S754_nan.
Proof.
  intros Ek Ef. rewrite mul_spec, Ek, Ef. unfold SF64mul, SFmul.
  apply binary_round_aux_not_nan. lia.
Qed.

(** * Running the methods *)

Arguments UR5.model_value : simpl never.
Arguments py_lt : simpl never.
Arguments py_gt : simpl never.
Arguments py_le : simpl never.

Ltac run_method :=
  repeat progress
    (unfold bind, get, ret, raise, call, GetDOFValues, SetDOFValues, getitem,
       setitem, set_multicontroller, log_calls, with_DOFValues; simpl).

Lemma py_index_3 (n : nat) : (3 < n)%nat -> py_index n 3 = Some 3%nat.
Proof.
  intros H. unfold py_index.
  replace (3 <? 0) with false by reflexivity.
  replace (0 <=? 3) with true by reflexivity.
  destruct (Z.ltb_spec 3 (Z.of_nat n)) as [_|Hge]; [reflexivity | lia].
Qed.

Lemma py_index_3_short (n : nat) : (n <= 3)%nat -> py_index n 3 = None.
Proof.
  intros H. unfold py_index.
  replace (3 <? 0) with false by reflexivity.
  replace (0 <=? 3) with true by reflexivity.
  destruct (Z.ltb_spec 3 (Z.of_nat n)) as [Hlt|_]; [lia | reflexivity].
Qed.

Lemma log_calls_app (cs1 cs2 : list Call) (r : UR5_Robot) :
  log_calls cs2 (log_calls cs1 r) = log_calls (cs1 ++ cs2) r.
Proof. unfold log_calls; simpl. now rewrite app_assoc. Qed.

Lemma log_calls_nil (r : UR5_Robot) : log_calls [] r = r.
Proof. destruct r; unfold log_calls; simpl. now rewrite app_nil_r. Qed.

(** A command value that passes both guards, on a robot with a gripper
    and a joint at index 3: the whole run of [set_gripper_openning]. *)
Lemma set_gripper_openning_run (r : UR5_Robot) (v : pynum) :
  _has_gripper r = true ->
  py_lt v (PyInt 0) = false ->
  py_gt v (PyInt 255) = false ->
  (3 < length (DOFValues r))%nat ->
  UR5.set_gripper_openning v r =
    (Return tt,
     log_calls [CGetDOFValues; CGetController;
                CSetDesired (<[3%nat := UR5.model_value v]> (DOFValues r));
                CWaitForController 0; CSleep 2] r).
Proof.
  intros Hg Hlt Hgt Hlen. destruct r as [sim hg mc dofs cs]; simpl in *.
  subst hg. unfold UR5.set_gripper_openning. run_method.
  rewrite Hlt, Hgt; simpl. rewrite (py_index_3 _ Hlen); simpl.
  now rewrite <- !app_assoc.
Qed.

(** The same run when the joint vector is too short for index 3. *)
Lemma set_gripper_openning_short (r : UR5_Robot) (v : pynum) :
  _has_gripper r = true ->
  py_lt v (PyInt 0) = false ->
  py_gt v (PyInt 255) = false ->
  (length (DOFValues r) <= 3)%nat ->
  UR5.set_gripper_openning v r = (Raise IndexError, log_calls [CGetDOFValues] r).
Proof.
  intros Hg Hlt Hgt Hlen. destruct r as [sim hg mc dofs cs]; simpl in *.
  subst hg. unfold UR5.set_gripper_openning. run_method.
  rewrite Hlt, Hgt; simpl. now rewrite (py_index_3_short _ Hlen).
Qed.

Lemma set_gripper_openning_no_gripper (r : UR5_Robot) (v : pynum) :
  _has_gripper r = false ->
  UR5.set_gripper_openning v r = (Raise (Exception no_gripper_msg), r).
Proof.
  intros Hg. unfold UR5.set_gripper_openning. run_method. now rewrite Hg.
Qed.

Lemma set_gripper_openning_out_of_range (r : UR5_Robot) (v : pynum) :
  _has_gripper r = true ->
  py_lt v (PyInt 0) || py_gt v (PyInt 255) = true ->
  UR5.set_gripper_openning v r =
    (Raise (ValueError "Gripper value should be between 0 and 255."), r).
Proof.
  intros Hg Hv. unfold UR5.set_gripper_openning. run_method.
  now rewrite Hg, Hv.
Qed.

Lemma _set_dof_value_3 (r : UR5_Robot) (x : float) :
  (3 < length (DOFValues r))%nat ->
  UR5._set_dof_value 3 x r =
    (Return tt,
     with_DOFValues (<[3%nat := x]> (DOFValues r))
       (log_calls [CGetDOFValues;
                   CSetDOFValues (<[3%nat := x]> (DOFValues r))] r)).
Proof.
  intros Hlen. destruct r as [sim hg mc dofs cs]; simpl in *.
  unfold UR5._set_dof_value. run_method.
  rewrite (py_index_3 _ Hlen). run_method. now rewrite <- !app_assoc.
Qed.

(** * The command range and the linear map *)

Lemma float_of_int_0 : float_of_int 0 = 0%float.
Proof. reflexivity. Qed.

Lemma float_of_int_255 : float_of_int 255 = 255%float.
Proof. vm_compute. reflexivity. Qed.

(** A value in [0, 255] passes both comparisons of the guard. *)
Lemma in_command_range_accepted (v : pynum) :
  in_command_range v = true ->
  py_lt v (PyInt 0) = false /\ py_gt v (PyInt 255) = false.
Proof.
  unfold in_command_range, py_gt, py_le, py_lt.
  intros [H0 H255]%andb_prop. destruct v as [z|f].
  - split; lia.
  - cbn [to_float] in *. split; now apply leb_ltb_false.
Qed.

(** Enumeration of the integer commands 0..255. *)
Lemma forall_int_commands (P : Z -> bool) :
  forallb P (seqZ 0 256) = true ->
  forall z, 0 <= z <= 255 -> P z = true.
Proof.
  intros HP z Hz. rewrite forallb_forall in HP. apply HP.
  apply list_elem_of_In, elem_of_seqZ. lia.
Qed.

Lemma model_value_int (z : Z) :
  0 <= z <= 255 ->
  UR5.model_value (PyInt z) = spec_linear_map (PyInt z) /\
  (UR5.model_value (PyInt z) =? spec_linear_map (PyInt z))%float = true /\
  in_joint_range (UR5.model_value (PyInt z)) = true.
Proof.
  intros Hz. split; [|split].
  - unfold UR5.model_value, spec_linear_map, py_abs.
    rewrite Z.abs_eq by lia. unfold _ROBOT_GRIPPER_MAX_VALUE.
    now rewrite float_of_int_255.
  - revert z Hz. apply forall_int_commands. vm_compute. reflexivity.
  - revert z Hz. apply forall_int_commands. vm_compute. reflexivity.
Qed.

Lemma model_value_float (f : float) :
  in_command_range (PyFloat f) = true ->
  (f <> (-0)%float -> UR5.model_value (PyFloat f) = spec_linear_map (PyFloat f)) /\
  (UR5.model_value (PyFloat f) =? spec_linear_map (PyFloat f))%float = true.
Proof.
  unfold in_command_range, py_le. cbn [to_float].
  rewrite float_of_int_0, float_of_int_255. intros [H0 H255]%andb_prop.
  unfold UR5.model_value, spec_linear_map, py_abs, _ROBOT_GRIPPER_MAX_VALUE.
  cbn [to_float]. rewrite float_of_int_255.
  destruct (in_range_cases f H0 H255) as [->|[->|(m & e & E)]].
  - split; [reflexivity | vm_compute; reflexivity].
  - split; [congruence | vm_compute; reflexivity].
  - rewrite (abs_finite_pos f m e E). split; [reflexivity|].
    apply eqb_refl_not_nan.
    eapply mul_finite_not_nan; [vm_compute; reflexivity | exact E].
Qed.

(** The linear map on every command in range, int or float. *)
Lemma model_value_linear (v : pynum) :
  in_command_range v = true ->
  (UR5.model_value v =? spec_linear_map v)%float = true.
Proof.
  destruct v as [z|f]; intros Hv.
  - apply model_value_int. unfold in_command_range, py_le in Hv. lia.
  - now apply model_value_float.
Qed.

(** * The joint range

    The model value of a command in [0, 255] lies in [0, 0.715584844], for
    floats as for ints.  The product with the largest float below 255 is,
    before rounding, already below 0.715584844, and rounding does not step
    over a binary64 number. *)

Lemma SFcompare_comparable (x y : spec_float) :
  x <> S754_nan -> y <> S754_nan -> exists c, SFcompare x y = Some c.
Proof.
  destruct x as [s|s|  |s m e], y as [s'|s'|  |s' m' e']; intros Hx Hy;
    try congruence; simpl; eauto.
Qed.

Lemma ltb_false_leb (x y : float) :
  Prim2SF x <> S754_nan -> Prim2SF y <> S754_nan ->
  (x <? y)%float = false -> (y <=? x)%float = true.
Proof.
  intros Hx Hy. rewrite FloatAxioms.leb_spec, FloatAxioms.ltb_spec.
  unfold SFleb, SFltb.
  rewrite (SFcompare_antisym (Prim2SF x) (Prim2SF y)).
  destruct (SFcompare_comparable _ _ Hx Hy) as [c ->].
  destruct c; simpl; congruence.
Qed.

(** The order on two positive finite numbers, read on exponent and
    mantissa. *)
Lemma SFleb_finite_pos (m : positive) (e : Z) (m' : positive) (e' : Z) :
  SFleb (S754_finite false m e) (S754_finite false m' e') = true ->
  e < e' \/ (e = e' /\ Zpos m <= Zpos m').
Proof.
  unfold SFleb, SFcompare.
  destruct (Z.compare_spec e e') as [He|He|He]; [|now left|discriminate].
  intros H. right. split; [exact He|].
  change (PosDef.Pos.compare_cont Eq m m') with (m ?= m')%positive in H.
  destruct (Pos.compare_spec m m'); [lia|lia|discriminate].
Qed.

(** What the guard lets through: a value in the command range, or a NaN. *)
Lemma accepted_in_command_range_or_nan (v : pynum) :
  py_lt v (PyInt 0) = false ->
  py_gt v (PyInt 255) = false ->
  in_command_range v = true \/ v = PyFloat nan.
Proof.
  unfold in_command_range, py_gt, py_lt, py_le. destruct v as [z|f].
  - intros H0 H255. left. apply andb_true_intro. split; lia.
  - cbn [to_float]. rewrite float_of_int_0, float_of_int_255. intros H0 H255.
    destruct (Prim2SF f) as [s|s|  |s m e] eqn:E.
    3: { right. f_equal. apply Prim2SF_inj. now rewrite E. }
    all: assert (Hf : Prim2SF f <> S754_nan) by congruence.
    all: left.
    all: rewrite (ltb_false_leb f 0 Hf ltac:(discriminate) H0).
    all: now rewrite (ltb_false_leb 255 f ltac:(discriminate) Hf H255).
Qed.

Lemma model_value_float_in_joint_range (f : float) :
  in_command_range (PyFloat f) = true ->
  in_joint_range (UR5.model_value (PyFloat f)) = true.
Proof.
  unfold in_command_range, py_le. cbn [to_float].
  rewrite float_of_int_0, float_of_int_255. intros [H0 H255]%andb_prop.
  unfold UR5.model_value, py_abs, _ROBOT_GRIPPER_MAX_VALUE.
  cbn [to_float]. rewrite float_of_int_255.
  destruct (in_range_cases f H0 H255) as [->|[->|(m & e & E)]];
    [vm_compute; reflexivity | vm_compute; reflexivity |].
  rewrite (abs_finite_pos f m e E).
  destruct (Leibniz.eqb f 255) eqn:E255.
  { apply Leibniz.eqb_spec in E255 as ->. vm_compute. reflexivity. }
  assert (Hne : f <> 255%float).
  { intros ->. vm_compute in E255. discriminate. }
  pose proof (Prim2SF_valid f) as Hvalid. rewrite E in Hvalid.
  cbn [valid_binary] in Hvalid. unfold bounded in Hvalid.
  apply andb_prop in Hvalid as [Hcan _].
  destruct (canonical_mantissa_digits m e Hcan) as (Hm & _ & _).
  (* the order [f <= 255] on mantissa and exponent *)
  assert (Hf : e < -45 \/ (e = -45 /\ Zpos m < 8972014882652160)).
  { rewrite FloatAxioms.leb_spec, E in H255.
    change (Prim2SF 255) with (S754_finite false 8972014882652160 (-45)) in H255.
    destruct (SFleb_finite_pos _ _ _ _ H255) as [He|[He Hm']]; [now left|].
    right. split; [exact He|].
    destruct (Z.eq_dec (Zpos m) 8972014882652160) as [Heq|Hneq]; [|lia].
    exfalso. apply Hne, Prim2SF_inj. rewrite E, He.
    injection Heq as ->. reflexivity. }
  pose proof (Prim2SF_valid (_OPENRAVE_GRIPPER_MAX_VALUE / 255 * f)) as Hprod.
  unfold in_joint_range. rewrite !FloatAxioms.leb_spec.
  rewrite mul_spec, E in Hprod |- *.
  change (Prim2SF (_OPENRAVE_GRIPPER_MAX_VALUE / 255))
    with (S754_finite false 6470691411908517 (-61)) in Hprod |- *.
  change (Prim2SF _OPENRAVE_GRIPPER_MAX_VALUE)
    with (S754_finite false 6445415273580749 (-53)).
  change (Prim2SF 0) with (S754_zero false).
  unfold SF64mul, SFmul in Hprod |- *. cbn [xorb] in Hprod |- *.
  apply andb_true_intro. split; [apply binary_round_aux_nonneg|].
  apply binary_round_aux_le; [reflexivity | unfold emax, prec; lia | lia | | exact Hprod].
  rewrite Pos2Z.inj_mul.
  replace (-53 - (-61 + e)) with (53 + (-45 - e)) by lia.
  rewrite Z.pow_add_r by lia.
  assert (Hp : 0 < 2 ^ (-45 - e)) by (apply Z.pow_pos_nonneg; lia).
  destruct Hf as [He|[-> Hm']].
  - assert (2 ^ 1 <= 2 ^ (-45 - e)) by (apply Z.pow_le_mono_r; lia).
    change (2 ^ 53) with 9007199254740992 in *. change (2 ^ 1) with 2 in *. nia.
  - change (2 ^ (-45 - -45)) with 1. change (2 ^ 53) with 9007199254740992. lia.
Qed.

(** Every command in [0, 255], int or float, maps into the joint range. *)
Lemma model_value_in_joint_range (v : pynum) :
  in_command_range v = true -> in_joint_range (UR5.model_value v) = true.
Proof.
  destruct v as [z|f]; intros Hv.
  - apply model_value_int. unfold in_command_range, py_le in Hv. lia.
  - now apply model_value_float_in_joint_range.
Qed.

(** So the only accepted value that leaves the joint range is a NaN. *)
Lemma accepted_in_joint_range_or_nan (v : pynum) :
  py_lt v (PyInt 0) = false ->
  py_gt v (PyInt 255) = false ->
  in_joint_range (UR5.model_value v) = true \/ v = PyFloat nan.
Proof.
  intros Hlt Hgt.
  destruct (accepted_in_command_range_or_nan v Hlt Hgt) as [Hv| ->];
    [left; now apply model_value_in_joint_range | now right].
Qed.

(** * Every run keeps controller commands synchronised

    Proved by composition: the primitive steps are synchronised, a
    controller command is synchronised together with the wait and the sleep
    that follow it, and [bind] preserves the property. *)

Section Synchronised.

Lemma commands_synchronised_app (cs1 cs2 : list Call) :
  commands_synchronised cs1 = true ->
  commands_synchronised cs2 = true ->
  commands_synchronised (cs1 ++ cs2) = true.
Proof.
  intros H1 H2. induction cs1 as [|c rest IH]; [exact H2|].
  cbn [commands_synchronised app] in *.
  apply andb_prop in H1 as [Hc Hrest].
  rewrite (IH Hrest), andb_true_r.
  destruct (is_controller_command c); [|reflexivity].
  destruct rest as [|[] [|[] rest']]; try discriminate Hc.
  exact Hc.
Qed.

Lemma synchronised_ret {A : Type} (a : A) : synchronised (ret a).
Proof. intros r. exists []. simpl. now rewrite app_nil_r. Qed.

Lemma synchronised_raise {A : Type} (e : PyExc) : synchronised (@raise A e).
Proof. intros r. exists []. simpl. now rewrite app_nil_r. Qed.

Lemma synchronised_get : synchronised get.
Proof. intros r. exists []. simpl. now rewrite app_nil_r. Qed.

Lemma synchronised_bind {A B : Type} (m : M A) (k : A -> M B) :
  synchronised m -> (forall a, synchronised (k a)) -> synchronised (bind m k).
Proof.
  intros Hm Hk r. destruct (Hm r) as (new1 & E1 & S1). unfold bind.
  destruct (m r) as [[a|e] r1]; simpl in E1.
  - destruct (Hk a r1) as (new2 & E2 & S2).
    exists (new1 ++ new2). rewrite E2, E1, app_assoc.
    auto using commands_synchronised_app.
  - exists new1. auto.
Qed.

Lemma synchronised_call (c : Call) :
  is_controller_command c = false -> synchronised (call c).
Proof.
  intros Hc r. exists [c]. split; [reflexivity|].
  cbn [commands_synchronised]. now rewrite Hc.
Qed.

Lemma synchronised_command (c : Call) :
  synchronised (call c ;;; call (CWaitForController 0) ;;; call (CSleep 2)).
Proof.
  intros r. exists [c; CWaitForController 0; CSleep 2]. split.
  - run_method. now rewrite <- !app_assoc.
  - cbn. now destruct (is_controller_command c).
Qed.

Lemma synchronised_set_multicontroller (attached : list Attachment) :
  synchronised (set_multicontroller attached).
Proof. intros r. exists []. simpl. now rewrite app_nil_r. Qed.

Lemma synchronised_GetDOFValues : synchronised GetDOFValues.
Proof. intros r. exists [CGetDOFValues]. split; reflexivity. Qed.

Lemma synchronised_SetDOFValues (values : list float) :
  synchronised (SetDOFValues values).
Proof. intros r. exists [CSetDOFValues values]. split; reflexivity. Qed.

Lemma synchronised_getitem (a : list float) (i : Z) : synchronised (getitem a i).
Proof.
  unfold getitem. destruct (py_index (length a) i) as [n|];
    [destruct (a !! n)|]; auto using synchronised_ret, synchronised_raise.
Qed.

Lemma synchronised_setitem (a : list float) (i : Z) (x : float) :
  synchronised (setitem a i x).
Proof.
  unfold setitem. destruct (py_index (length a) i);
    auto using synchronised_ret, synchronised_raise.
Qed.

End Synchronised.

Ltac synchronised_step :=
  first
    [ apply synchronised_ret | apply synchronised_raise | apply synchronised_get
    | apply synchronised_GetDOFValues | apply synchronised_SetDOFValues
    | apply synchronised_getitem | apply synchronised_setitem
    | apply synchronised_set_multicontroller
    | apply synchronised_command
    | apply synchronised_call; reflexivity
    | apply synchronised_bind; [|intros ?]
    | match goal with
      | |- synchronised (if ?b then _ else _) => destruct b
      | |- synchronised (match ?x with _ => _ end) => destruct x
      end ].

Lemma synchronised_set_gripper_openning (v : pynum) :
  synchronised (UR5.set_gripper_openning v).
Proof. unfold UR5.set_gripper_openning. repeat synchronised_step. Qed.

Lemma synchronised__set_dof_value (index : Z) (x : float) :
  synchronised (UR5._set_dof_value index x).
Proof. unfold UR5._set_dof_value. repeat synchronised_step. Qed.

Lemma synchronised_Release (kinbody : option KinBody) :
  synchronised (UR5.Release kinbody).
Proof. unfold UR5.Release. repeat synchronised_step. Qed.

Lemma synchronised_open_gripper (kinbody : option KinBody) (execute : bool) :
  synchronised (UR5.open_gripper kinbody execute).
Proof.
  unfold UR5.open_gripper.
  repeat first [ apply synchronised_set_gripper_openning
               | apply synchronised__set_dof_value
               | apply synchronised_Release
               | synchronised_step ].
Qed.

Lemma synchronised_close_gripper (execute : bool) :
  synchronised (UR5.close_gripper execute).
Proof.
  unfold UR5.close_gripper.
  repeat first [ apply synchronised_set_gripper_openning
               | apply synchronised__set_dof_value
               | synchronised_step ].
Qed.

Lemma synchronised_execute_trajectory (trajectory : Trajectory) :
  synchronised (UR5.execute_trajectory_and_wait_for_controller trajectory).
Proof.
  unfold UR5.execute_trajectory_and_wait_for_controller.
  repeat synchronised_step.
Qed.

Lemma synchronised_is_gripper_fully_open :
  synchronised UR5.is_gripper_fully_open.
Proof. unfold UR5.is_gripper_fully_open. repeat synchronised_step. Qed.

Lemma synchronised_is_gripper_fully_closed :
  synchronised UR5.is_gripper_fully_closed.
Proof. unfold UR5.is_gripper_fully_closed. repeat synchronised_step. Qed.

Lemma synchronised_attach_controller
    (RaveCreateController : string -> option Controller)
    (name : string) (dof_indices : list Z) :
  synchronised (UR5.attach_controller RaveCreateController name dof_indices).
Proof.
  unfold UR5.attach_controller, UR5.AttachController.
  repeat synchronised_step.
Qed.

(** * Properties of the class *)

(** C1: with a gripper and a command value [v] in [0, 255],
    [set_gripper_openning] returns, and the array it hands to [SetDesired]
    holds at index 3 the model value [0.715584844 / 255 * v] (equal in the
    sense of Python's [==], and identical unless [v] is the float [-0.0]);
    every other joint is as read.  The command 0 maps to 0 and the command
    255 maps to 0.715584844. *)
Theorem set_gripper_openning_linear_map (r : UR5_Robot) (v : pynum) :
  _has_gripper r = true ->
  in_command_range v = true ->
  (3 < length (DOFValues r))%nat ->
  exists sent : list float,
    UR5.set_gripper_openning v r =
      (Return tt,
       log_calls [CGetDOFValues; CGetController; CSetDesired sent;
                  CWaitForController 0; CSleep 2] r) /\
    sent !! 3%nat = Some (UR5.model_value v) /\
    (forall i : nat, i <> 3%nat -> sent !! i = DOFValues r !! i) /\
    (UR5.model_value v =? 0.715584844 / 255 * to_float v)%float = true /\
    (to_float v <> (-0)%float ->
     UR5.model_value v = (0.715584844 / 255 * to_float v)%float) /\
    UR5.model_value (PyInt 0) = 0%float /\
    UR5.model_value (PyInt 255) = 0.715584844%float.
Proof.
  intros Hg Hv Hlen.
  destruct (in_command_range_accepted v Hv) as [Hlt Hgt].
  exists (<[3%nat := UR5.model_value v]> (DOFValues r)).
  split; [now apply set_gripper_openning_run|].
  split; [now apply list_lookup_insert_eq|].
  split; [intros i Hi; now apply list_lookup_insert_ne|].
  split; [exact (model_value_linear v Hv)|].
  split; [|split; vm_compute; reflexivity].
  destruct v as [z|f]; cbn [to_float]; intros Hz.
  - apply model_value_int. unfold in_command_range, py_le in Hv. lia.
  - now apply model_value_float.
Qed.

Lemma set_gripper_openning_linear_map_witness :
  exists sent : list float,
    UR5.set_gripper_openning (PyInt 128) hardware_robot =
      (Return tt,
       log_calls [CGetDOFValues; CGetController; CSetDesired sent;
                  CWaitForController 0; CSleep 2] hardware_robot) /\
    sent !! 3%nat = Some (UR5.model_value (PyInt 128)) /\
    (forall i : nat, i <> 3%nat -> sent !! i = DOFValues hardware_robot !! i) /\
    (UR5.model_value (PyInt 128) =? 0.715584844 / 255 * to_float (PyInt 128))%float
      = true /\
    (to_float (PyInt 128) <> (-0)%float ->
     UR5.model_value (PyInt 128)
       = (0.715584844 / 255 * to_float (PyInt 128))%float) /\
    UR5.model_value (PyInt 0) = 0%float /\
    UR5.model_value (PyInt 255) = 0.715584844%float.
Proof.
  apply (set_gripper_openning_linear_map hardware_robot (PyInt 128)).
  - reflexivity.
  - reflexivity.
  - vm_compute. lia.
Defined.

(** C2: with a gripper, [set_gripper_openning] raises [ValueError] if and
    only if the command value is outside [0, 255], that is [value < 0] or
    [value > 255]; a value inside the range never raises it, and is carried
    out whenever the robot has a joint at index 3. *)
Theorem set_gripper_openning_ValueError_iff (r : UR5_Robot) (v : pynum) :
  _has_gripper r = true ->
  ((exists msg, fst (UR5.set_gripper_openning v r) = Raise (ValueError msg))
   <-> (py_lt v (PyInt 0) = true \/ py_gt v (PyInt 255) = true)) /\
  (in_command_range v = true ->
   (forall msg, fst (UR5.set_gripper_openning v r) <> Raise (ValueError msg)) /\
   ((3 < length (DOFValues r))%nat ->
    fst (UR5.set_gripper_openning v r) = Return tt)).
Proof.
  intros Hg.
  assert (Hin : py_lt v (PyInt 0) = false -> py_gt v (PyInt 255) = false ->
                (forall msg, fst (UR5.set_gripper_openning v r)
                             <> Raise (ValueError msg)) /\
                ((3 < length (DOFValues r))%nat ->
                 fst (UR5.set_gripper_openning v r) = Return tt)).
  { intros Hlt Hgt.
    destruct (Nat.lt_ge_cases 3 (length (DOFValues r))) as [Hlen|Hlen].
    - rewrite (set_gripper_openning_run r v Hg Hlt Hgt Hlen).
      split; [discriminate | reflexivity].
    - rewrite (set_gripper_openning_short r v Hg Hlt Hgt Hlen).
      split; [discriminate | lia]. }
  split; [split|].
  - intros [msg Hraise].
    destruct (py_lt v (PyInt 0)) eqn:Hlt; [now left|].
    destruct (py_gt v (PyInt 255)) eqn:Hgt; [now right|].
    destruct (Hin eq_refl eq_refl) as [Hno _]. now destruct (Hno msg).
  - intros Hout. eexists.
    rewrite (set_gripper_openning_out_of_range r v Hg); [reflexivity|].
    destruct Hout as [-> | ->]; [reflexivity | apply orb_true_r].
  - intros Hv. destruct (in_command_range_accepted v Hv) as [Hlt Hgt]. auto.
Qed.

Lemma set_gripper_openning_ValueError_iff_witness :
  ((exists msg,
      fst (UR5.set_gripper_openning (PyInt 256) hardware_robot)
        = Raise (ValueError msg))
   <-> (py_lt (PyInt 256) (PyInt 0) = true \/
        py_gt (PyInt 256) (PyInt 255) = true)) /\
  (in_command_range (PyInt 256) = true ->
   (forall msg,
      fst (UR5.set_gripper_openning (PyInt 256) hardware_robot)
        <> Raise (ValueError msg)) /\
   ((3 < length (DOFValues hardware_robot))%nat ->
    fst (UR5.set_gripper_openning (PyInt 256) hardware_robot) = Return tt)).
Proof.
  apply (set_gripper_openning_ValueError_iff hardware_robot (PyInt 256)).
  reflexivity.
Defined.

(** C3: on a robot constructed without a gripper each of the five gripper
    operations raises the generic [Exception], whatever its arguments; the
    object is left as it was and no framework call is made (nothing is
    retried or recovered). *)
Theorem gripper_operations_need_gripper
    (r : UR5_Robot) (v : pynum) (kinbody : option KinBody) (execute : bool) :
  _has_gripper r = false ->
  UR5.is_gripper_fully_open r = (Raise (Exception no_gripper_msg), r) /\
  UR5.is_gripper_fully_closed r = (Raise (Exception no_gripper_msg), r) /\
  UR5.set_gripper_openning v r = (Raise (Exception no_gripper_msg), r) /\
  UR5.open_gripper kinbody execute r = (Raise (Exception no_gripper_msg), r) /\
  UR5.close_gripper execute r = (Raise (Exception no_gripper_msg), r).
Proof.
  intros Hg. repeat split.
  - unfold UR5.is_gripper_fully_open. run_method. now rewrite Hg.
  - unfold UR5.is_gripper_fully_closed. run_method. now rewrite Hg.
  - now apply set_gripper_openning_no_gripper.
  - unfold UR5.open_gripper. run_method. now rewrite Hg.
  - unfold UR5.close_gripper. run_method. now rewrite Hg.
Qed.

Lemma gripper_operations_need_gripper_witness :
  UR5.is_gripper_fully_open bare_robot
    = (Raise (Exception no_gripper_msg), bare_robot) /\
  UR5.is_gripper_fully_closed bare_robot
    = (Raise (Exception no_gripper_msg), bare_robot) /\
  UR5.set_gripper_openning (PyInt 100) bare_robot
    = (Raise (Exception no_gripper_msg), bare_robot) /\
  UR5.open_gripper (Some (kinbody_handle 1)) true bare_robot
    = (Raise (Exception no_gripper_msg), bare_robot) /\
  UR5.close_gripper true bare_robot
    = (Raise (Exception no_gripper_msg), bare_robot).
Proof.
  apply (gripper_operations_need_gripper bare_robot (PyInt 100)
           (Some (kinbody_handle 1)) true).
  reflexivity.
Defined.

(** C4: with a gripper and [execute=True], [open_gripper] and
    [close_gripper] take one of two paths, chosen by [is_in_simulation].
    In simulation they call [ReleaseFingers] / [CloseFingers] and then
    [WaitForController(0)], and nothing else.  On hardware they are
    [set_gripper_openning(0)] / [set_gripper_openning(255)] (after which
    [open_gripper] releases the kinbody it was given); with a joint at
    index 3 the calls made are those of [set_gripper_openning], and no
    finger call of the simulation path is among them. *)
Theorem gripper_execute_two_paths (r : UR5_Robot) (kinbody : option KinBody) :
  _has_gripper r = true ->
  (is_in_simulation r = true ->
   UR5.open_gripper kinbody true r =
     (Return tt, log_calls [CReleaseFingers kinbody; CWaitForController 0] r) /\
   UR5.close_gripper true r =
     (Return tt, log_calls [CCloseFingers; CWaitForController 0] r)) /\
  (is_in_simulation r = false ->
   UR5.open_gripper kinbody true r =
     (UR5.set_gripper_openning (PyInt 0) ;;; UR5.Release kinbody) r /\
   UR5.close_gripper true r = UR5.set_gripper_openning (PyInt 255) r /\
   ((3 < length (DOFValues r))%nat ->
    UR5.open_gripper kinbody true r =
      (Return tt,
       log_calls ([CGetDOFValues; CGetController;
                   CSetDesired (<[3%nat := 0%float]> (DOFValues r));
                   CWaitForController 0; CSleep 2]
                  ++ match kinbody with
                     | Some body => [CRelease body]
                     | None => []
                     end) r) /\
    UR5.close_gripper true r =
      (Return tt,
       log_calls [CGetDOFValues; CGetController;
                  CSetDesired (<[3%nat := 0.715584844%float]> (DOFValues r));
                  CWaitForController 0; CSleep 2] r))).
Proof.
  intros Hg. split; intros Hsim.
  - split.
    + unfold UR5.open_gripper, bind at 1, get. rewrite Hg, Hsim.
      run_method. now rewrite <- !app_assoc.
    + unfold UR5.close_gripper, bind at 1, get. rewrite Hg, Hsim.
      run_method. now rewrite <- !app_assoc.
  - assert (Hopen : UR5.open_gripper kinbody true r =
              (UR5.set_gripper_openning (PyInt 0) ;;; UR5.Release kinbody) r).
    { unfold UR5.open_gripper at 1, bind at 1, get. now rewrite Hg, Hsim. }
    assert (Hclose : UR5.close_gripper true r
                     = UR5.set_gripper_openning (PyInt 255) r).
    { unfold UR5.close_gripper at 1, bind at 1, get. now rewrite Hg, Hsim. }
    split; [exact Hopen|]. split; [exact Hclose|]. intros Hlen. split.
    + rewrite Hopen. unfold bind at 1.
      rewrite (set_gripper_openning_run r (PyInt 0) Hg eq_refl eq_refl Hlen).
      destruct kinbody as [body|]; unfold UR5.Release; run_method.
      * now rewrite <- !app_assoc.
      * reflexivity.
    + rewrite Hclose.
      now rewrite (set_gripper_openning_run r (PyInt 255) Hg eq_refl eq_refl Hlen).
Qed.

Lemma gripper_execute_two_paths_witness :
  (UR5.open_gripper None true simulated_robot =
     (Return tt,
      log_calls [CReleaseFingers None; CWaitForController 0] simulated_robot) /\
   UR5.close_gripper true simulated_robot =
     (Return tt,
      log_calls [CCloseFingers; CWaitForController 0] simulated_robot)) /\
  (UR5.open_gripper (Some (kinbody_handle 7)) true hardware_robot =
     (Return tt,
      log_calls [CGetDOFValues; CGetController; CSetDesired rest_joints;
                 CWaitForController 0; CSleep 2;
                 CRelease (kinbody_handle 7)] hardware_robot) /\
   UR5.close_gripper true hardware_robot =
     (Return tt,
      log_calls [CGetDOFValues; CGetController;
                 CSetDesired [0; 0; 0; 0.715584844; 0; 0; 0]%float;
                 CWaitForController 0; CSleep 2] hardware_robot)).
Proof.
  split.
  - apply (gripper_execute_two_paths simulated_robot None); reflexivity.
  - apply (gripper_execute_two_paths hardware_robot (Some (kinbody_handle 7)));
      [reflexivity | reflexivity | vm_compute; lia].
Defined.

(** C5: with a gripper and a joint value [d] at index 3,
    [is_gripper_fully_open] returns [d == 0] and [is_gripper_fully_closed]
    returns [abs(d - 0.715584844) <= 0.00001].  Both only read the joint
    values: the object is unchanged but for the record of that one read,
    and the answer depends on no other joint. *)
Theorem gripper_state_checks (r : UR5_Robot) (d : float) :
  _has_gripper r = true ->
  DOFValues r !! 3%nat = Some d ->
  UR5.is_gripper_fully_open r =
    (Return (d =? 0)%float, log_calls [CGetDOFValues] r) /\
  UR5.is_gripper_fully_closed r =
    (Return (abs (d - 0.715584844) <=? 0.00001)%float,
     log_calls [CGetDOFValues] r).
Proof.
  intros Hg Hd.
  assert (Hlen : (3 < length (DOFValues r))%nat)
    by (apply lookup_lt_is_Some; eauto).
  destruct r as [sim hg mc dofs cs]; simpl in *. subst hg. split.
  - unfold UR5.is_gripper_fully_open. run_method.
    rewrite (py_index_3 _ Hlen), Hd. reflexivity.
  - unfold UR5.is_gripper_fully_closed. run_method.
    rewrite (py_index_3 _ Hlen), Hd. reflexivity.
Qed.

Lemma gripper_state_checks_witness :
  UR5.is_gripper_fully_open hardware_robot =
    (Return (0 =? 0)%float, log_calls [CGetDOFValues] hardware_robot) /\
  UR5.is_gripper_fully_closed hardware_robot =
    (Return (abs (0 - 0.715584844) <=? 0.00001)%float,
     log_calls [CGetDOFValues] hardware_robot).
Proof.
  apply (gripper_state_checks hardware_robot 0%float); reflexivity.
Defined.

(** C6: every controller command issued by the class is followed by the
    fixed synchronisation.  In every run of every method, returning or
    raising, each [SetDesired] or [SetPath] call is directly followed by
    [WaitForController(0)] and then [time.sleep(2)].  In particular
    [set_gripper_openning], when it carries out a command, makes the calls
    [SetDesired], [WaitForController(0)], [time.sleep(2)] in that order
    (after reading the joint values and fetching the controller), and
    [execute_trajectory_and_wait_for_controller] makes the calls [SetPath],
    [WaitForController(0)], [time.sleep(2)] in that order (after fetching
    the controller). *)
Theorem controller_command_then_wait_then_sleep
    (r : UR5_Robot) (v : pynum) (trajectory : Trajectory) :
  (_has_gripper r = true ->
   py_lt v (PyInt 0) || py_gt v (PyInt 255) = false ->
   (3 < length (DOFValues r))%nat ->
   UR5.set_gripper_openning v r =
     (Return tt,
      log_calls [CGetDOFValues; CGetController;
                 CSetDesired (<[3%nat := UR5.model_value v]> (DOFValues r));
                 CWaitForController 0; CSleep 2] r)) /\
  UR5.execute_trajectory_and_wait_for_controller trajectory r =
    (Return tt,
     log_calls [CGetController; CSetPath trajectory;
                CWaitForController 0; CSleep 2] r) /\
  (synchronised (UR5.set_gripper_openning v) /\
   synchronised (UR5.execute_trajectory_and_wait_for_controller trajectory) /\
   (forall kinbody execute, synchronised (UR5.open_gripper kinbody execute)) /\
   (forall execute, synchronised (UR5.close_gripper execute)) /\
   synchronised UR5.is_gripper_fully_open /\
   synchronised UR5.is_gripper_fully_closed /\
   (forall RaveCreateController name dof_indices,
      synchronised
        (UR5.attach_controller RaveCreateController name dof_indices))).
Proof.
  split; [|split].
  - intros Hg [Hlt Hgt]%orb_false_elim Hlen.
    now apply set_gripper_openning_run.
  - unfold UR5.execute_trajectory_and_wait_for_controller. run_method.
    now rewrite <- !app_assoc.
  - auto 10 using synchronised_set_gripper_openning,
      synchronised_execute_trajectory, synchronised_open_gripper,
      synchronised_close_gripper, synchronised_is_gripper_fully_open,
      synchronised_is_gripper_fully_closed, synchronised_attach_controller.
Qed.

Lemma controller_command_then_wait_then_sleep_witness :
  UR5.set_gripper_openning (PyInt 255) hardware_robot =
    (Return tt,
     log_calls [CGetDOFValues; CGetController;
                CSetDesired [0; 0; 0; 0.715584844; 0; 0; 0]%float;
                CWaitForController 0; CSleep 2] hardware_robot) /\
  UR5.execute_trajectory_and_wait_for_controller
    (trajectory_handle 1) hardware_robot =
    (Return tt,
     log_calls [CGetController; CSetPath (trajectory_handle 1);
                CWaitForController 0; CSleep 2] hardware_robot).
Proof.
  pose proof (controller_command_then_wait_then_sleep
                hardware_robot (PyInt 255) (trajectory_handle 1))
    as [Hset [Hexec _]].
  split; [|exact Hexec].
  apply Hset; [reflexivity | reflexivity | vm_compute; lia].
Defined.

(** C7: when [set_gripper_openning] raises because the gripper is absent
    or because the value is below 0 or above 255, it raises before doing
    anything: the object it leaves is the object it was given, joint
    values and record of framework calls included. *)
Theorem set_gripper_openning_raises_before_effect (r : UR5_Robot) (v : pynum) :
  _has_gripper r = false \/
  py_lt v (PyInt 0) = true \/ py_gt v (PyInt 255) = true ->
  exists e : PyExc,
    UR5.set_gripper_openning v r = (Raise e, r) /\
    DOFValues (snd (UR5.set_gripper_openning v r)) = DOFValues r /\
    calls (snd (UR5.set_gripper_openning v r)) = calls r /\
    e = (if _has_gripper r
         then ValueError "Gripper value should be between 0 and 255."
         else Exception no_gripper_msg).
Proof.
  intros H. destruct (_has_gripper r) eqn:Hg.
  - assert (Hv : py_lt v (PyInt 0) || py_gt v (PyInt 255) = true).
    { destruct H as [H|[-> | ->]]; [discriminate | reflexivity | apply orb_true_r]. }
    eexists. rewrite (set_gripper_openning_out_of_range r v Hg Hv). auto.
  - eexists. rewrite (set_gripper_openning_no_gripper r v Hg). auto.
Qed.

Lemma set_gripper_openning_raises_before_effect_witness :
  exists e : PyExc,
    UR5.set_gripper_openning (PyInt (-1)) hardware_robot
      = (Raise e, hardware_robot) /\
    DOFValues (snd (UR5.set_gripper_openning (PyInt (-1)) hardware_robot))
      = DOFValues hardware_robot /\
    calls (snd (UR5.set_gripper_openning (PyInt (-1)) hardware_robot))
      = calls hardware_robot /\
    e = (if _has_gripper hardware_robot
         then ValueError "Gripper value should be between 0 and 255."
         else Exception no_gripper_msg).
Proof.
  apply (set_gripper_openning_raises_before_effect hardware_robot (PyInt (-1))).
  right; left. reflexivity.
Defined.

(** C8: with a gripper, a joint at index 3 and [execute=False],
    [open_gripper] sets the joint value at index 3 to 0.0 and
    [close_gripper] sets it to 0.715584844; every other joint value is
    unchanged.  The only framework calls are the read and the write of
    the joint values (and, for [open_gripper], the release of the kinbody
    it was given): no controller command, no wait, no sleep. *)
Theorem gripper_without_execution_sets_joint_3
    (r : UR5_Robot) (kinbody : option KinBody) :
  _has_gripper r = true ->
  (3 < length (DOFValues r))%nat ->
  (exists new : list Call,
     UR5.open_gripper kinbody false r =
       (Return tt,
        with_DOFValues (<[3%nat := 0%float]> (DOFValues r)) (log_calls new r)) /\
     new = [CGetDOFValues; CSetDOFValues (<[3%nat := 0%float]> (DOFValues r))]
           ++ match kinbody with
              | Some body => [CRelease body]
              | None => []
              end /\
     forallb (fun c => negb (is_controller_command c || is_synchronisation c))
       new = true) /\
  (exists new : list Call,
     UR5.close_gripper false r =
       (Return tt,
        with_DOFValues (<[3%nat := 0.715584844%float]> (DOFValues r))
          (log_calls new r)) /\
     new = [CGetDOFValues;
            CSetDOFValues (<[3%nat := 0.715584844%float]> (DOFValues r))] /\
     forallb (fun c => negb (is_controller_command c || is_synchronisation c))
       new = true) /\
  (<[3%nat := 0%float]> (DOFValues r)) !! 3%nat = Some 0%float /\
  (<[3%nat := 0.715584844%float]> (DOFValues r)) !! 3%nat
    = Some 0.715584844%float /\
  (forall (x : float) (i : nat),
     i <> 3%nat -> (<[3%nat := x]> (DOFValues r)) !! i = DOFValues r !! i).
Proof.
  intros Hg Hlen. repeat split.
  - eexists. split; [|split; [reflexivity|]].
    + unfold UR5.open_gripper, bind at 1, get. rewrite Hg. cbn [negb].
      unfold bind at 1. rewrite (_set_dof_value_3 r _ Hlen).
      destruct kinbody as [body|]; unfold UR5.Release; run_method.
      * now rewrite <- !app_assoc.
      * reflexivity.
    + now destruct kinbody.
  - eexists. split; [|split; [reflexivity|reflexivity]].
    unfold UR5.close_gripper, bind at 1, get. rewrite Hg. cbn [negb].
    now rewrite (_set_dof_value_3 r _ Hlen).
  - now apply list_lookup_insert_eq.
  - now apply list_lookup_insert_eq.
  - intros x i Hi. now apply list_lookup_insert_ne.
Qed.

Lemma gripper_without_execution_sets_joint_3_witness :
  UR5.open_gripper (Some (kinbody_handle 7)) false hardware_robot =
    (Return tt,
     with_DOFValues rest_joints
       (log_calls [CGetDOFValues; CSetDOFValues rest_joints;
                   CRelease (kinbody_handle 7)] hardware_robot)) /\
  UR5.close_gripper false hardware_robot =
    (Return tt,
     with_DOFValues [0; 0; 0; 0.715584844; 0; 0; 0]%float
       (log_calls [CGetDOFValues;
                   CSetDOFValues [0; 0; 0; 0.715584844; 0; 0; 0]%float]
          hardware_robot)).
Proof.
  assert (Hlen : (3 < length (DOFValues hardware_robot))%nat)
    by (vm_compute; lia).
  destruct (gripper_without_execution_sets_joint_3
              hardware_robot (Some (kinbody_handle 7)) eq_refl Hlen)
    as [[new1 [Hopen [-> _]]] [[new2 [Hclose [-> _]]] _]].
  split; [exact Hopen | exact Hclose].
Defined.

(** C9, as the code has it: [attach_controller] returns [False], without
    attaching anything and without changing the object, when
    [RaveCreateController] returns [None].  On a robot that has a
    multicontroller (the constructor creates one exactly when
    [is_in_simulation] is false) it returns [True] if and only if
    [RaveCreateController] returns a controller, and in that case attaches
    this controller, with the given indices and 0, to the multicontroller. *)
Theorem attach_controller_with_multicontroller
    (RaveCreateController : string -> option Controller)
    (name : string) (dof_indices : list Z) (r : UR5_Robot) :
  (RaveCreateController name = None ->
   UR5.attach_controller RaveCreateController name dof_indices r =
     (Return false, log_calls [CGetEnv; CRaveCreateController name] r)) /\
  (forall attached : list Attachment,
     multicontroller r = Some attached ->
     (fst (UR5.attach_controller RaveCreateController name dof_indices r)
        = Return true
      <-> RaveCreateController name <> None) /\
     (forall controller : Controller,
        RaveCreateController name = Some controller ->
        UR5.attach_controller RaveCreateController name dof_indices r =
          (Return true,
           mkRobot (is_in_simulation r) (_has_gripper r)
             (Some (attached ++ [(controller, dof_indices, 0)]))
             (DOFValues r)
             (calls r ++ [CGetEnv; CRaveCreateController name;
                          CAttachController controller dof_indices 0])))) /\
  (forall (joints : list float) (ik_loaded has_gripper : bool),
     multicontroller (UR5.__init__ joints ik_loaded false has_gripper)
       = Some [] /\
     multicontroller (UR5.__init__ joints ik_loaded true has_gripper) = None).
Proof.
  assert (Hnone : RaveCreateController name = None ->
    UR5.attach_controller RaveCreateController name dof_indices r =
      (Return false, log_calls [CGetEnv; CRaveCreateController name] r)).
  { intros Hc. unfold UR5.attach_controller. run_method. rewrite Hc.
    now rewrite <- !app_assoc. }
  assert (Hsome : forall attached controller,
    multicontroller r = Some attached ->
    RaveCreateController name = Some controller ->
    UR5.attach_controller RaveCreateController name dof_indices r =
      (Return true,
       mkRobot (is_in_simulation r) (_has_gripper r)
         (Some (attached ++ [(controller, dof_indices, 0)]))
         (DOFValues r)
         (calls r ++ [CGetEnv; CRaveCreateController name;
                      CAttachController controller dof_indices 0]))).
  { intros attached controller Hmc Hc. unfold UR5.attach_controller.
    run_method. rewrite Hc. run_method. rewrite Hmc.
    unfold UR5.AttachController. run_method. now rewrite <- !app_assoc. }
  split; [exact Hnone|]. split.
  - intros attached Hmc. split; [|intros controller; now apply Hsome].
    destruct (RaveCreateController name) as [controller|] eqn:Hc.
    + rewrite (Hsome attached controller Hmc eq_refl). now split.
    + rewrite (Hnone eq_refl). split; [discriminate | congruence].
  - intros joints ik_loaded has_gripper.
    split; destruct ik_loaded, has_gripper; reflexivity.
Qed.

Lemma attach_controller_with_multicontroller_witness :
  fst (UR5.attach_controller any_controller "ur5controller"
         [0; 1; 2; 3; 4; 5] hardware_robot) = Return true /\
  UR5.attach_controller any_controller "ur5controller"
    [0; 1; 2; 3; 4; 5] hardware_robot =
    (Return true,
     mkRobot false true
       (Some [(controller_handle 0, [0; 1; 2; 3; 4; 5], 0)])
       rest_joints
       (calls hardware_robot
          ++ [CGetEnv; CRaveCreateController "ur5controller";
              CAttachController (controller_handle 0) [0; 1; 2; 3; 4; 5] 0])) /\
  UR5.attach_controller no_controller "ur5controller"
    [0; 1; 2; 3; 4; 5] hardware_robot =
    (Return false,
     log_calls [CGetEnv; CRaveCreateController "ur5controller"] hardware_robot).
Proof.
  destruct (attach_controller_with_multicontroller any_controller
              "ur5controller" [0; 1; 2; 3; 4; 5] hardware_robot)
    as [_ [Hattach _]].
  destruct (Hattach [] eq_refl) as [Hiff Hrun].
  destruct (attach_controller_with_multicontroller no_controller
              "ur5controller" [0; 1; 2; 3; 4; 5] hardware_robot)
    as [Hnone _].
  split; [apply Hiff; discriminate|].
  split; [exact (Hrun (controller_handle 0) eq_refl) | exact (Hnone eq_refl)].
Defined.

(** C9, as stated, fails on a robot constructed for simulation: the
    constructor never assigns [multicontroller] there, so when
    [RaveCreateController] does return a controller, [attach_controller]
    raises [AttributeError] instead of returning [True]. *)
Lemma attach_controller_in_simulation_raises :
  any_controller "ur5controller" <> None /\
  fst (UR5.attach_controller any_controller "ur5controller"
         [0; 1; 2; 3; 4; 5] simulated_robot)
    = Raise (AttributeError "multicontroller") /\
  ~ (fst (UR5.attach_controller any_controller "ur5controller"
            [0; 1; 2; 3; 4; 5] simulated_robot) = Return true
     <-> any_controller "ur5controller" <> None).
Proof.
  split; [discriminate|]. split; [reflexivity|].
  intros [_ H]. specialize (H ltac:(discriminate)). discriminate H.
Qed.

(** C10 fails at a NaN: both comparisons of the guard are false for it, so
    [set_gripper_openning] accepts it, and the value it writes at index 3
    and sends to the controller is a NaN, which is not within
    [0, 0.715584844]. *)
Theorem set_gripper_openning_accepts_nan :
  UR5.set_gripper_openning (PyFloat nan) hardware_robot =
    (Return tt,
     log_calls [CGetDOFValues; CGetController;
                CSetDesired [0; 0; 0; nan; 0; 0; 0]%float;
                CWaitForController 0; CSleep 2] hardware_robot) /\
  py_lt (PyFloat nan) (PyInt 0) = false /\
  py_gt (PyFloat nan) (PyInt 255) = false /\
  UR5.model_value (PyFloat nan) = nan /\
  in_joint_range (UR5.model_value (PyFloat nan)) = false.
Proof. repeat split. Qed.

(** * Further properties of the class *)

(** ** Array indexing *)

Lemma py_index_in_range (len : nat) (i : Z) :
  - Z.of_nat len <= i < Z.of_nat len ->
  py_index len i = Some (position len i) /\ (position len i < len)%nat.
Proof.
  intros Hi. unfold py_index, position.
  assert (Hlen : 0 < Z.of_nat len) by lia.
  destruct (Z.ltb_spec i 0) as [Hneg|Hpos].
  - assert (Hmod : i mod Z.of_nat len = i + Z.of_nat len).
    { symmetry. apply Z.mod_unique with (-1); lia. }
    rewrite Hmod.
    destruct (Z.leb_spec 0 (i + Z.of_nat len)); [|lia].
    destruct (Z.ltb_spec (i + Z.of_nat len) (Z.of_nat len)); [|lia].
    split; [reflexivity | lia].
  - rewrite Z.mod_small by lia.
    destruct (Z.leb_spec 0 i); [|lia].
    destruct (Z.ltb_spec i (Z.of_nat len)); [|lia].
    split; [reflexivity | lia].
Qed.

Lemma py_index_out_of_range (len : nat) (i : Z) :
  i < - Z.of_nat len \/ Z.of_nat len <= i -> py_index len i = None.
Proof.
  intros Hi. unfold py_index.
  destruct (Z.ltb_spec i 0) as [Hneg|Hpos].
  - destruct (Z.leb_spec 0 (i + Z.of_nat len)); [lia | reflexivity].
  - destruct (Z.leb_spec 0 i); [|lia].
    destruct (Z.ltb_spec i (Z.of_nat len)); [lia | reflexivity].
Qed.

(** X1: [_set_dof_value(index, value)] with [-n <= index < n], [n] the
    number of joints, returns after reading the joint values and writing
    them back with [value] at the position Python gives the index (a
    negative index counts from the end); the number of joints is kept and
    every other joint value is as it was. *)
Theorem _set_dof_value_in_range (r : UR5_Robot) (index : Z) (value : float) :
  - Z.of_nat (length (DOFValues r)) <= index < Z.of_nat (length (DOFValues r)) ->
  let n := position (length (DOFValues r)) index in
  let written := <[n := value]> (DOFValues r) in
  UR5._set_dof_value index value r =
    (Return tt,
     with_DOFValues written
       (log_calls [CGetDOFValues; CSetDOFValues written] r)) /\
  written !! n = Some value /\
  length written = length (DOFValues r) /\
  (forall j : nat, j <> n -> written !! j = DOFValues r !! j).
Proof.
  intros Hi n written.
  destruct (py_index_in_range _ _ Hi) as [Hidx Hn]. fold n in Hidx, Hn.
  split; [|split; [|split]].
  - destruct r as [sim hg mc dofs cs]; simpl in *.
    unfold UR5._set_dof_value. run_method. rewrite Hidx. run_method.
    now rewrite <- !app_assoc.
  - now apply list_lookup_insert_eq.
  - apply length_insert.
  - intros j Hj. apply list_lookup_insert_ne. congruence.
Qed.

Lemma _set_dof_value_in_range_witness :
  UR5._set_dof_value (-1) 0.5%float hardware_robot =
    (Return tt,
     with_DOFValues [0; 0; 0; 0; 0; 0; 0.5]%float
       (log_calls [CGetDOFValues;
                   CSetDOFValues [0; 0; 0; 0; 0; 0; 0.5]%float]
          hardware_robot)).
Proof.
  apply (_set_dof_value_in_range hardware_robot (-1) 0.5%float).
  vm_compute. split; [discriminate | reflexivity].
Defined.

(** X2: [_set_dof_value(index, value)] with an index outside [-n, n)
    raises [IndexError] after the read: the joint values are not written
    and [SetDOFValues] is not called. *)
Theorem _set_dof_value_out_of_range (r : UR5_Robot) (index : Z) (value : float) :
  index < - Z.of_nat (length (DOFValues r)) \/
  Z.of_nat (length (DOFValues r)) <= index ->
  UR5._set_dof_value index value r =
    (Raise IndexError, log_calls [CGetDOFValues] r) /\
  DOFValues (snd (UR5._set_dof_value index value r)) = DOFValues r.
Proof.
  intros Hi.
  assert (Hrun : UR5._set_dof_value index value r =
                 (Raise IndexError, log_calls [CGetDOFValues] r)).
  { destruct r as [sim hg mc dofs cs]; simpl in *.
    unfold UR5._set_dof_value. run_method.
    now rewrite (py_index_out_of_range _ _ Hi). }
  split; [exact Hrun | now rewrite Hrun].
Qed.

Lemma _set_dof_value_out_of_range_witness :
  UR5._set_dof_value 7 0.5%float hardware_robot =
    (Raise IndexError, log_calls [CGetDOFValues] hardware_robot) /\
  DOFValues (snd (UR5._set_dof_value 7 0.5%float hardware_robot))
    = DOFValues hardware_robot.
Proof.
  apply (_set_dof_value_out_of_range hardware_robot 7 0.5%float).
  right. vm_compute. discriminate.
Defined.

(** ** Runs of the state tests and of the moves without execution *)

Lemma is_gripper_fully_open_run (r : UR5_Robot) (d : float) :
  _has_gripper r = true ->
  DOFValues r !! 3%nat = Some d ->
  UR5.is_gripper_fully_open r =
    (Return (fully_open_test d), log_calls [CGetDOFValues] r).
Proof.
  intros Hg Hd.
  assert (Hlen : (3 < length (DOFValues r))%nat)
    by (apply lookup_lt_is_Some; eauto).
  destruct r as [sim hg mc dofs cs]; simpl in *. subst hg.
  unfold UR5.is_gripper_fully_open. run_method.
  now rewrite (py_index_3 _ Hlen), Hd.
Qed.

Lemma is_gripper_fully_closed_run (r : UR5_Robot) (d : float) :
  _has_gripper r = true ->
  DOFValues r !! 3%nat = Some d ->
  UR5.is_gripper_fully_closed r =
    (Return (fully_closed_test d), log_calls [CGetDOFValues] r).
Proof.
  intros Hg Hd.
  assert (Hlen : (3 < length (DOFValues r))%nat)
    by (apply lookup_lt_is_Some; eauto).
  destruct r as [sim hg mc dofs cs]; simpl in *. subst hg.
  unfold UR5.is_gripper_fully_closed. run_method.
  now rewrite (py_index_3 _ Hlen), Hd.
Qed.

Lemma is_gripper_short (r : UR5_Robot) :
  _has_gripper r = true ->
  (length (DOFValues r) <= 3)%nat ->
  UR5.is_gripper_fully_open r = (Raise IndexError, log_calls [CGetDOFValues] r) /\
  UR5.is_gripper_fully_closed r = (Raise IndexError, log_calls [CGetDOFValues] r).
Proof.
  intros Hg Hlen. destruct r as [sim hg mc dofs cs]; simpl in *. subst hg.
  split.
  - unfold UR5.is_gripper_fully_open. run_method.
    now rewrite (py_index_3_short _ Hlen).
  - unfold UR5.is_gripper_fully_closed. run_method.
    now rewrite (py_index_3_short _ Hlen).
Qed.

Lemma _set_dof_value_3_short (r : UR5_Robot) (x : float) :
  (length (DOFValues r) <= 3)%nat ->
  UR5._set_dof_value 3 x r = (Raise IndexError, log_calls [CGetDOFValues] r).
Proof.
  intros Hlen. destruct r as [sim hg mc dofs cs]; simpl in *.
  unfold UR5._set_dof_value. run_method.
  now rewrite (py_index_3_short _ Hlen).
Qed.

Lemma open_gripper_no_execute (r : UR5_Robot) (kinbody : option KinBody) :
  _has_gripper r = true ->
  UR5.open_gripper kinbody false r =
    (UR5._set_dof_value 3 0%float ;;; UR5.Release kinbody) r.
Proof.
  intros Hg. unfold UR5.open_gripper at 1, bind at 1, get. now rewrite Hg.
Qed.

Lemma close_gripper_no_execute (r : UR5_Robot) :
  _has_gripper r = true ->
  UR5.close_gripper false r =
    UR5._set_dof_value 3 _OPENRAVE_GRIPPER_MAX_VALUE r.
Proof.
  intros Hg. unfold UR5.close_gripper at 1, bind at 1, get. now rewrite Hg.
Qed.

Lemma Release_run (kinbody : option KinBody) (r : UR5_Robot) :
  UR5.Release kinbody r = (Return tt, log_calls (release_calls kinbody) r).
Proof.
  destruct kinbody; unfold UR5.Release; [reflexivity|].
  now rewrite log_calls_nil.
Qed.

Lemma open_gripper_no_execute_run (r : UR5_Robot) (kinbody : option KinBody) :
  _has_gripper r = true ->
  (3 < length (DOFValues r))%nat ->
  UR5.open_gripper kinbody false r =
    (Return tt,
     with_DOFValues (<[3%nat := 0%float]> (DOFValues r))
       (log_calls ([CGetDOFValues;
                    CSetDOFValues (<[3%nat := 0%float]> (DOFValues r))]
                   ++ release_calls kinbody) r)).
Proof.
  intros Hg Hlen. rewrite (open_gripper_no_execute r kinbody Hg).
  unfold bind at 1. rewrite (_set_dof_value_3 r _ Hlen), Release_run.
  unfold with_DOFValues, log_calls; simpl. now rewrite <- !app_assoc.
Qed.

Lemma close_gripper_no_execute_run (r : UR5_Robot) :
  _has_gripper r = true ->
  (3 < length (DOFValues r))%nat ->
  UR5.close_gripper false r =
    (Return tt,
     with_DOFValues (<[3%nat := _OPENRAVE_GRIPPER_MAX_VALUE]> (DOFValues r))
       (log_calls [CGetDOFValues;
                   CSetDOFValues
                     (<[3%nat := _OPENRAVE_GRIPPER_MAX_VALUE]> (DOFValues r))] r)).
Proof.
  intros Hg Hlen. rewrite (close_gripper_no_execute r Hg).
  now apply _set_dof_value_3.
Qed.

(** A joint value that compares equal to 0 is a zero of either sign. *)
Lemma fully_open_test_zero (d : float) :
  fully_open_test d = true -> d = 0%float \/ d = (-0)%float.
Proof.
  unfold fully_open_test. rewrite FloatAxioms.eqb_spec.
  destruct (Prim2SF d) as [s|s|  |s m e] eqn:E.
  - intros _. destruct s; [right | left]; apply Prim2SF_inj; now rewrite E.
  - destruct s; discriminate.
  - discriminate.
  - destruct s; discriminate.
Qed.

Lemma tests_exclusive (d : float) :
  fully_open_test d = true -> fully_closed_test d = false.
Proof.
  intros [-> | ->]%fully_open_test_zero; vm_compute; reflexivity.
Qed.

(** ** State tests after a move without execution *)

(** X3: with a gripper and a joint at index 3, after
    [open_gripper(kinbody, execute=False)] the gripper tests as fully open
    and not as fully closed. *)
Theorem open_gripper_then_fully_open (r : UR5_Robot) (kinbody : option KinBody) :
  _has_gripper r = true ->
  (3 < length (DOFValues r))%nat ->
  fst ((UR5.open_gripper kinbody false ;;; UR5.is_gripper_fully_open) r)
    = Return true /\
  fst ((UR5.open_gripper kinbody false ;;; UR5.is_gripper_fully_closed) r)
    = Return false.
Proof.
  intros Hg Hlen. unfold bind.
  rewrite (open_gripper_no_execute_run r kinbody Hg Hlen).
  set (r1 := with_DOFValues _ _).
  assert (Hd : DOFValues r1 !! 3%nat = Some 0%float)
    by (now apply list_lookup_insert_eq).
  rewrite (is_gripper_fully_open_run r1 _ Hg Hd).
  rewrite (is_gripper_fully_closed_run r1 _ Hg Hd).
  split; reflexivity.
Qed.

Lemma open_gripper_then_fully_open_witness :
  fst ((UR5.open_gripper None false ;;; UR5.is_gripper_fully_open)
         hardware_robot) = Return true /\
  fst ((UR5.open_gripper None false ;;; UR5.is_gripper_fully_closed)
         hardware_robot) = Return false.
Proof.
  apply (open_gripper_then_fully_open hardware_robot None);
    [reflexivity | vm_compute; lia].
Defined.

(** X4: with a gripper and a joint at index 3, after
    [close_gripper(execute=False)] the gripper tests as fully closed and
    not as fully open. *)
Theorem close_gripper_then_fully_closed (r : UR5_Robot) :
  _has_gripper r = true ->
  (3 < length (DOFValues r))%nat ->
  fst ((UR5.close_gripper false ;;; UR5.is_gripper_fully_closed) r)
    = Return true /\
  fst ((UR5.close_gripper false ;;; UR5.is_gripper_fully_open) r)
    = Return false.
Proof.
  intros Hg Hlen. unfold bind.
  rewrite (close_gripper_no_execute_run r Hg Hlen).
  set (r1 := with_DOFValues _ _).
  assert (Hd : DOFValues r1 !! 3%nat = Some _OPENRAVE_GRIPPER_MAX_VALUE)
    by (now apply list_lookup_insert_eq).
  rewrite (is_gripper_fully_open_run r1 _ Hg Hd).
  rewrite (is_gripper_fully_closed_run r1 _ Hg Hd).
  split; reflexivity.
Qed.

Lemma close_gripper_then_fully_closed_witness :
  fst ((UR5.close_gripper false ;;; UR5.is_gripper_fully_closed)
         hardware_robot) = Return true /\
  fst ((UR5.close_gripper false ;;; UR5.is_gripper_fully_open)
         hardware_robot) = Return false.
Proof.
  apply (close_gripper_then_fully_closed hardware_robot);
    [reflexivity | vm_compute; lia].
Defined.

(** X5: in no state do [is_gripper_fully_open] and
    [is_gripper_fully_closed] both return [True]: whenever one of them
    returns [True] the other returns [False]. *)
Theorem never_fully_open_and_fully_closed (r : UR5_Robot) :
  (fst (UR5.is_gripper_fully_open r) <> Return true \/
   fst (UR5.is_gripper_fully_closed r) = Return false) /\
  (fst (UR5.is_gripper_fully_closed r) <> Return true \/
   fst (UR5.is_gripper_fully_open r) = Return false).
Proof.
  destruct (_has_gripper r) eqn:Hg.
  - destruct (DOFValues r !! 3%nat) as [d|] eqn:Hd.
    + rewrite (is_gripper_fully_open_run r d Hg Hd).
      rewrite (is_gripper_fully_closed_run r d Hg Hd). cbn [fst].
      destruct (fully_open_test d) eqn:Ho.
      * rewrite (tests_exclusive d Ho). split; [now right | now left].
      * split; [now left | now right].
    + apply lookup_ge_None in Hd.
      destruct (is_gripper_short r Hg Hd) as [-> ->].
      split; now left.
  - assert (Ho : UR5.is_gripper_fully_open r
                 = (Raise (Exception no_gripper_msg), r)).
    { unfold UR5.is_gripper_fully_open, bind, get. now rewrite Hg. }
    assert (Hc : UR5.is_gripper_fully_closed r
                 = (Raise (Exception no_gripper_msg), r)).
    { unfold UR5.is_gripper_fully_closed, bind, get. now rewrite Hg. }
    rewrite Ho, Hc. split; now left.
Qed.

(** ** A joint vector too short for index 3 *)

Lemma open_gripper_execute_hardware (r : UR5_Robot) (kinbody : option KinBody) :
  _has_gripper r = true ->
  is_in_simulation r = false ->
  UR5.open_gripper kinbody true r =
    (UR5.set_gripper_openning (PyInt 0) ;;; UR5.Release kinbody) r.
Proof.
  intros Hg Hsim. unfold UR5.open_gripper at 1, bind at 1, get.
  now rewrite Hg, Hsim.
Qed.

Lemma close_gripper_execute_hardware (r : UR5_Robot) :
  _has_gripper r = true ->
  is_in_simulation r = false ->
  UR5.close_gripper true r = UR5.set_gripper_openning (PyInt 255) r.
Proof.
  intros Hg Hsim. unfold UR5.close_gripper at 1, bind at 1, get.
  now rewrite Hg, Hsim.
Qed.

Lemma open_gripper_execute_simulation (r : UR5_Robot) (kinbody : option KinBody) :
  _has_gripper r = true ->
  is_in_simulation r = true ->
  UR5.open_gripper kinbody true r =
    (Return tt, log_calls [CReleaseFingers kinbody; CWaitForController 0] r).
Proof.
  intros Hg Hsim. unfold UR5.open_gripper, bind at 1, get. rewrite Hg, Hsim.
  run_method. now rewrite <- !app_assoc.
Qed.

(** X6: on a robot with a gripper and fewer than four joints, every
    operation that reads or writes joint 3 raises [IndexError] right after
    reading the joint values: the two state tests, [set_gripper_openning]
    with a value that passes the guard, [open_gripper] and [close_gripper]
    without execution and, on hardware, with execution.  Nothing is
    written, sent to the controller or released. *)
Theorem short_joint_vector_raises_IndexError
    (r : UR5_Robot) (v : pynum) (kinbody : option KinBody) :
  _has_gripper r = true ->
  (length (DOFValues r) <= 3)%nat ->
  let after_read := (@Raise unit IndexError, log_calls [CGetDOFValues] r) in
  UR5.is_gripper_fully_open r = (Raise IndexError, log_calls [CGetDOFValues] r) /\
  UR5.is_gripper_fully_closed r = (Raise IndexError, log_calls [CGetDOFValues] r) /\
  (py_lt v (PyInt 0) || py_gt v (PyInt 255) = false ->
   UR5.set_gripper_openning v r = after_read) /\
  UR5.open_gripper kinbody false r = after_read /\
  UR5.close_gripper false r = after_read /\
  (is_in_simulation r = false ->
   UR5.open_gripper kinbody true r = after_read /\
   UR5.close_gripper true r = after_read).
Proof.
  intros Hg Hlen after_read. subst after_read.
  destruct (is_gripper_short r Hg Hlen) as [Hopen Hclosed].
  split; [exact Hopen|]. split; [exact Hclosed|].
  split; [|split; [|split]].
  - intros [Hlt Hgt]%orb_false_elim. now apply set_gripper_openning_short.
  - rewrite (open_gripper_no_execute r kinbody Hg). unfold bind.
    now rewrite (_set_dof_value_3_short r _ Hlen).
  - rewrite (close_gripper_no_execute r Hg).
    now apply _set_dof_value_3_short.
  - intros Hsim. split.
    + rewrite (open_gripper_execute_hardware r kinbody Hg Hsim). unfold bind.
      now rewrite (set_gripper_openning_short r (PyInt 0) Hg eq_refl eq_refl Hlen).
    + rewrite (close_gripper_execute_hardware r Hg Hsim).
      now apply set_gripper_openning_short.
Qed.

Lemma short_joint_vector_raises_IndexError_witness :
  UR5.is_gripper_fully_open short_robot
    = (Raise IndexError, log_calls [CGetDOFValues] short_robot) /\
  UR5.open_gripper (Some (kinbody_handle 7)) true short_robot
    = (Raise IndexError, log_calls [CGetDOFValues] short_robot).
Proof.
  assert (Hlen : (length (DOFValues short_robot) <= 3)%nat)
    by (vm_compute; lia).
  destruct (short_joint_vector_raises_IndexError short_robot (PyInt 0)
              (Some (kinbody_handle 7)) eq_refl Hlen)
    as (Hopen & _ & _ & _ & _ & Hhw).
  split; [exact Hopen | exact (proj1 (Hhw eq_refl))].
Defined.

(** ** Releasing the kinbody *)

(** X7: [open_gripper] calls [self.Release] on a body exactly when it was
    given that body, it ran without execution or on hardware, and it
    returns normally.  So a run that raises releases nothing, and the
    simulated execution leaves the release to [ReleaseFingers]. *)
Theorem open_gripper_releases_iff
    (r : UR5_Robot) (kinbody : option KinBody) (execute : bool)
    (body : KinBody) :
  exists new : list Call,
    calls (snd (UR5.open_gripper kinbody execute r)) = calls r ++ new /\
    (In (CRelease body) new <->
     fst (UR5.open_gripper kinbody execute r) = Return tt /\
     kinbody = Some body /\
     (execute = false \/ is_in_simulation r = false)).
Proof.
  assert (Hrel : forall pre : list Call,
            (forall c, In c pre -> c <> CRelease body) ->
            In (CRelease body) (pre ++ release_calls kinbody)
            <-> kinbody = Some body).
  { intros pre Hpre. rewrite in_app_iff. split.
    - intros [Hin|Hin]; [now destruct (Hpre _ Hin)|].
      destruct kinbody as [b|]; simpl in Hin; [|easy].
      destruct Hin as [Heq|[]]. now injection Heq as ->.
    - intros ->. right. now left. }
  destruct (_has_gripper r) eqn:Hg.
  2: { exists []. unfold UR5.open_gripper, bind, get. rewrite Hg. simpl.
       rewrite app_nil_r. split; [reflexivity|]. split; [easy|].
       intros (H & _). discriminate. }
  destruct (Nat.lt_ge_cases 3 (length (DOFValues r))) as [Hlen|Hlen].
  - destruct execute.
    + destruct (is_in_simulation r) eqn:Hsim.
      * rewrite (open_gripper_execute_simulation r kinbody Hg Hsim).
        eexists. split; [reflexivity|]. simpl. split.
        -- intros [H|[H|[]]]; discriminate.
        -- intros (_ & _ & [H|H]); discriminate.
      * rewrite (open_gripper_execute_hardware r kinbody Hg Hsim).
        unfold bind.
        rewrite (set_gripper_openning_run r (PyInt 0) Hg eq_refl eq_refl Hlen).
        rewrite Release_run, log_calls_app.
        eexists. split; [reflexivity|]. cbn [fst].
        rewrite Hrel; [intuition|].
        intros c Hc. simpl in Hc.
        repeat (destruct Hc as [<-|Hc]; [discriminate|]). easy.
    + rewrite (open_gripper_no_execute_run r kinbody Hg Hlen).
      eexists. split; [reflexivity|]. cbn [fst].
      rewrite Hrel; [intuition|].
      intros c Hc. simpl in Hc.
      repeat (destruct Hc as [<-|Hc]; [discriminate|]). easy.
  - pose proof (short_run := _set_dof_value_3_short r 0%float Hlen).
    destruct execute.
    + destruct (is_in_simulation r) eqn:Hsim.
      * rewrite (open_gripper_execute_simulation r kinbody Hg Hsim).
        eexists. split; [reflexivity|]. simpl. split.
        -- intros [H|[H|[]]]; discriminate.
        -- intros (_ & _ & [H|H]); discriminate.
      * rewrite (open_gripper_execute_hardware r kinbody Hg Hsim).
        unfold bind.
        rewrite (set_gripper_openning_short r (PyInt 0) Hg eq_refl eq_refl Hlen).
        eexists. split; [reflexivity|]. simpl. split.
        -- intros [H|[]]; discriminate.
        -- intros (H & _). discriminate.
    + rewrite (open_gripper_no_execute r kinbody Hg). unfold bind.
      rewrite short_run.
      eexists. split; [reflexivity|]. simpl. split.
      * intros [H|[]]; discriminate.
      * intros (H & _). discriminate.
Qed.

(** ** What the methods leave alone

    As for synchronisation, by composition: a relation that is reflexive,
    transitive and kept by the recording of a call is kept by every
    sequence of steps that does not write the field it speaks of. *)

Section Keeps.

Variable R : UR5_Robot -> UR5_Robot -> Prop.
Hypothesis R_refl : forall r, R r r.
Hypothesis R_trans : forall r1 r2 r3, R r1 r2 -> R r2 r3 -> R r1 r3.
Hypothesis R_call : forall c r, R r (snd (call c r)).

Lemma keeps_ret {A : Type} (a : A) : keeps R (ret a).
Proof. intros r. apply R_refl. Qed.

Lemma keeps_raise {A : Type} (e : PyExc) : keeps R (@raise A e).
Proof. intros r. apply R_refl. Qed.

Lemma keeps_get : keeps R get.
Proof. intros r. apply R_refl. Qed.

Lemma keeps_call (c : Call) : keeps R (call c).
Proof. intros r. apply R_call. Qed.

Lemma keeps_bind {A B : Type} (m : M A) (k : A -> M B) :
  keeps R m -> (forall a, keeps R (k a)) -> keeps R (bind m k).
Proof.
  intros Hm Hk r. specialize (Hm r). unfold bind.
  destruct (m r) as [[a|e] r1]; simpl in *; [|exact Hm].
  eapply R_trans; [exact Hm | apply Hk].
Qed.

Lemma keeps_GetDOFValues : keeps R GetDOFValues.
Proof. intros r. apply (R_call CGetDOFValues). Qed.

Lemma keeps_getitem (a : list float) (i : Z) : keeps R (getitem a i).
Proof.
  unfold getitem. destruct (py_index (length a) i) as [n|];
    [destruct (a !! n)|]; auto using keeps_ret, keeps_raise.
Qed.

Lemma keeps_setitem (a : list float) (i : Z) (x : float) :
  keeps R (setitem a i x).
Proof.
  unfold setitem. destruct (py_index (length a) i);
    auto using keeps_ret, keeps_raise.
Qed.

End Keeps.

Lemma same_flags_refl (r : UR5_Robot) : same_flags r r.
Proof. now split. Qed.

Lemma same_flags_trans (r1 r2 r3 : UR5_Robot) :
  same_flags r1 r2 -> same_flags r2 r3 -> same_flags r1 r3.
Proof. intros [H1 H2] [H3 H4]. split; congruence. Qed.

Lemma same_flags_call (c : Call) (r : UR5_Robot) : same_flags r (snd (call c r)).
Proof. now split. Qed.

Lemma same_flags_SetDOFValues (values : list float) :
  keeps same_flags (SetDOFValues values).
Proof. intros r. now split. Qed.

Lemma same_flags_set_multicontroller (attached : list Attachment) :
  keeps same_flags (set_multicontroller attached).
Proof. intros r. now split. Qed.

Lemma same_multicontroller_trans (r1 r2 r3 : UR5_Robot) :
  same_multicontroller r1 r2 -> same_multicontroller r2 r3 ->
  same_multicontroller r1 r3.
Proof. unfold same_multicontroller. congruence. Qed.

Lemma same_multicontroller_SetDOFValues (values : list float) :
  keeps same_multicontroller (SetDOFValues values).
Proof. intros r. reflexivity. Qed.



Lemma same_multicontroller_refl (r : UR5_Robot) : same_multicontroller r r.
Proof. reflexivity. Qed.

Lemma same_multicontroller_call (c : Call) (r : UR5_Robot) :
  same_multicontroller r (snd (call c r)).
Proof. reflexivity. Qed.



Ltac keeps_step refl trans callH extra :=
  first
    [ apply (keeps_ret _ refl)
    | apply (keeps_raise _ refl)
    | apply (keeps_get _ refl)
    | apply (keeps_call _ callH)
    | apply (keeps_GetDOFValues _ callH)
    | apply (keeps_getitem _ refl)
    | apply (keeps_setitem _ refl)
    | extra
    | apply (keeps_bind _ trans); [|intros ?]
    | match goal with
      | |- keeps _ (if ?b then _ else _) => destruct b
      | |- keeps _ (match ?x with _ => _ end) => destruct x
      end ].

Ltac keeps_flags extra :=
  repeat keeps_step same_flags_refl same_flags_trans same_flags_call
    ltac:(first [ apply same_flags_SetDOFValues
                | apply same_flags_set_multicontroller
                | extra ]).

Ltac keeps_multicontroller extra :=
  repeat keeps_step same_multicontroller_refl same_multicontroller_trans
    same_multicontroller_call
    ltac:(first [ apply same_multicontroller_SetDOFValues | extra ]).


(** X8: no method changes the two flags of the object: after any run of
    any method, returning or raising, [is_in_simulation] and [_has_gripper]
    are what they were. *)
Theorem methods_keep_flags :
  keeps same_flags UR5.is_gripper_fully_open /\
  keeps same_flags UR5.is_gripper_fully_closed /\
  (forall RaveCreateController name dof_indices,
     keeps same_flags
       (UR5.attach_controller RaveCreateController name dof_indices)) /\
  (forall v, keeps same_flags (UR5.set_gripper_openning v)) /\
  (forall index value, keeps same_flags (UR5._set_dof_value index value)) /\
  (forall kinbody execute, keeps same_flags (UR5.open_gripper kinbody execute)) /\
  (forall execute, keeps same_flags (UR5.close_gripper execute)) /\
  (forall trajectory,
     keeps same_flags (UR5.execute_trajectory_and_wait_for_controller trajectory)).
Proof.
  assert (Hset : forall v, keeps same_flags (UR5.set_gripper_openning v)).
  { intros v. unfold UR5.set_gripper_openning. keeps_flags fail. }
  assert (Hdof : forall index value,
            keeps same_flags (UR5._set_dof_value index value)).
  { intros index value. unfold UR5._set_dof_value. keeps_flags fail. }
  repeat apply conj; intros.
  - unfold UR5.is_gripper_fully_open. keeps_flags fail.
  - unfold UR5.is_gripper_fully_closed. keeps_flags fail.
  - unfold UR5.attach_controller, UR5.AttachController. keeps_flags fail.
  - apply Hset.
  - apply Hdof.
  - unfold UR5.open_gripper, UR5.Release.
    keeps_flags ltac:(first [apply Hset | apply Hdof]).
  - unfold UR5.close_gripper.
    keeps_flags ltac:(first [apply Hset | apply Hdof]).
  - unfold UR5.execute_trajectory_and_wait_for_controller. keeps_flags fail.
Qed.

(** X9: only [attach_controller] touches the multicontroller: after any
    run of any other method, returning or raising, the attribute
    [multicontroller] (absent, or the controllers attached) is what it
    was. *)
Theorem methods_keep_multicontroller :
  keeps same_multicontroller UR5.is_gripper_fully_open /\
  keeps same_multicontroller UR5.is_gripper_fully_closed /\
  (forall v, keeps same_multicontroller (UR5.set_gripper_openning v)) /\
  (forall index value,
     keeps same_multicontroller (UR5._set_dof_value index value)) /\
  (forall kinbody execute,
     keeps same_multicontroller (UR5.open_gripper kinbody execute)) /\
  (forall execute, keeps same_multicontroller (UR5.close_gripper execute)) /\
  (forall trajectory,
     keeps same_multicontroller
       (UR5.execute_trajectory_and_wait_for_controller trajectory)).
Proof.
  assert (Hset : forall v,
            keeps same_multicontroller (UR5.set_gripper_openning v)).
  { intros v. unfold UR5.set_gripper_openning. keeps_multicontroller fail. }
  assert (Hdof : forall index value,
            keeps same_multicontroller (UR5._set_dof_value index value)).
  { intros index value. unfold UR5._set_dof_value. keeps_multicontroller fail. }
  repeat apply conj; intros.
  - unfold UR5.is_gripper_fully_open. keeps_multicontroller fail.
  - unfold UR5.is_gripper_fully_closed. keeps_multicontroller fail.
  - apply Hset.
  - apply Hdof.
  - unfold UR5.open_gripper, UR5.Release.
    keeps_multicontroller ltac:(first [apply Hset | apply Hdof]).
  - unfold UR5.close_gripper.
    keeps_multicontroller ltac:(first [apply Hset | apply Hdof]).
  - unfold UR5.execute_trajectory_and_wait_for_controller.
    keeps_multicontroller fail.
Qed.


(** ** Attaching controllers *)

Lemma attach_controller_created
    (RaveCreateController : string -> option Controller)
    (name : string) (dof_indices : list Z) (r : UR5_Robot)
    (attached : list Attachment) (controller : Controller) :
  multicontroller r = Some attached ->
  RaveCreateController name = Some controller ->
  UR5.attach_controller RaveCreateController name dof_indices r =
    (Return true,
     mkRobot (is_in_simulation r) (_has_gripper r)
       (Some (attached ++ [(controller, dof_indices, 0)]))
       (DOFValues r)
       (calls r ++ [CGetEnv; CRaveCreateController name;
                    CAttachController controller dof_indices 0])).
Proof.
  intros Hmc Hc. unfold UR5.attach_controller.
  run_method. rewrite Hc. run_method. rewrite Hmc.
  unfold UR5.AttachController. run_method. now rewrite <- !app_assoc.
Qed.

Lemma attach_controller_not_created
    (RaveCreateController : string -> option Controller)
    (name : string) (dof_indices : list Z) (r : UR5_Robot) :
  RaveCreateController name = None ->
  UR5.attach_controller RaveCreateController name dof_indices r =
    (Return false, log_calls [CGetEnv; CRaveCreateController name] r).
Proof.
  intros Hc. unfold UR5.attach_controller. run_method. rewrite Hc.
  now rewrite <- !app_assoc.
Qed.

(** X11: on a robot that has a multicontroller, [attach_controller] never
    raises, and the robot still has a multicontroller afterwards, holding
    the controllers attached before, in the same order, followed by the
    new one when there is one.  So two attachments in a row that both
    create their controller leave both attached, in call order. *)
Theorem attach_controller_accumulates
    (RaveCreateController : string -> option Controller)
    (name1 name2 : string) (indices1 indices2 : list Z) (r : UR5_Robot)
    (attached : list Attachment) :
  multicontroller r = Some attached ->
  (exists (b : bool) (added : list Attachment),
     fst (UR5.attach_controller RaveCreateController name1 indices1 r)
       = Return b /\
     multicontroller
       (snd (UR5.attach_controller RaveCreateController name1 indices1 r))
       = Some (attached ++ added) /\
     length added = (if b then 1 else 0)%nat) /\
  (forall c1 c2 : Controller,
     RaveCreateController name1 = Some c1 ->
     RaveCreateController name2 = Some c2 ->
     fst ((UR5.attach_controller RaveCreateController name1 indices1 ;;;
           UR5.attach_controller RaveCreateController name2 indices2) r)
       = Return true /\
     multicontroller
       (snd ((UR5.attach_controller RaveCreateController name1 indices1 ;;;
              UR5.attach_controller RaveCreateController name2 indices2) r))
       = Some (attached ++ [(c1, indices1, 0); (c2, indices2, 0)])).
Proof.
  intros Hmc. split.
  - destruct (RaveCreateController name1) as [c|] eqn:Hc.
    + rewrite (attach_controller_created _ _ _ _ _ _ Hmc Hc).
      exists true, [(c, indices1, 0)]. auto.
    + rewrite (attach_controller_not_created _ _ _ _ Hc).
      exists false, []. simpl. now rewrite app_nil_r.
  - intros c1 c2 H1 H2. unfold bind.
    rewrite (attach_controller_created _ _ _ _ _ _ Hmc H1).
    erewrite (attach_controller_created _ name2); [|reflexivity|exact H2].
    simpl. now rewrite <- app_assoc.
Qed.

Lemma attach_controller_accumulates_witness :
  fst ((UR5.attach_controller controller_by_name "arm" [0; 1; 2] ;;;
        UR5.attach_controller controller_by_name "gripper" [3])
         hardware_robot) = Return true /\
  multicontroller
    (snd ((UR5.attach_controller controller_by_name "arm" [0; 1; 2] ;;;
           UR5.attach_controller controller_by_name "gripper" [3])
            hardware_robot))
    = Some [(controller_handle 3, [0; 1; 2], 0);
            (controller_handle 7, [3], 0)].
Proof.
  destruct (attach_controller_accumulates controller_by_name "arm" "gripper"
              [0; 1; 2] [3] hardware_robot [] eq_refl) as [_ H].
  exact (H (controller_handle 3) (controller_handle 7) eq_refl eq_refl).
Defined.

(** ** The constructor *)






(** ** The conversion of commands *)

Lemma forall_int_command_pairs (P : Z -> Z -> bool) :
  forallb (fun a => forallb (P a) (seqZ 0 256)) (seqZ 0 256) = true ->
  forall a b, 0 <= a <= 255 -> 0 <= b <= 255 -> P a b = true.
Proof.
  intros HP a b Ha Hb.
  apply (forall_int_commands (fun a => forallb (P a) (seqZ 0 256))) with (z := a)
    in HP; [|exact Ha].
  now apply (forall_int_commands (P a)).
Qed.

Lemma ltb_irrefl (x : float) : (x <? x)%float = false.
Proof.
  rewrite FloatAxioms.ltb_spec. unfold SFltb.
  destruct (Prim2SF x) as [s|s|  |s m e] eqn:E; [| |reflexivity|];
    now rewrite SFcompare_refl.
Qed.

(** X14: on the integer commands 0..255 the conversion is strictly
    increasing: a larger command gives a larger model value.  Hence two
    different integer commands never give the same target. *)
Theorem model_value_strictly_increasing (a b : Z) :
  0 <= a -> a < b -> b <= 255 ->
  (UR5.model_value (PyInt a) <? UR5.model_value (PyInt b))%float = true /\
  UR5.model_value (PyInt a) <> UR5.model_value (PyInt b).
Proof.
  intros Ha Hab Hb.
  assert (Hlt : (UR5.model_value (PyInt a) <? UR5.model_value (PyInt b))%float
                = true).
  { assert (H : implb (a <? b)
                  (UR5.model_value (PyInt a) <? UR5.model_value (PyInt b))%float
                = true).
    { apply (forall_int_command_pairs
               (fun a b => implb (a <? b)
                  (UR5.model_value (PyInt a) <? UR5.model_value (PyInt b))%float));
        [vm_compute; reflexivity | lia | lia]. }
    destruct (Z.ltb_spec a b); [exact H | lia]. }
  split; [exact Hlt|].
  intros Heq. rewrite Heq, ltb_irrefl in Hlt. discriminate.
Qed.

Lemma model_value_strictly_increasing_witness :
  (UR5.model_value (PyInt 254) <? UR5.model_value (PyInt 255))%float = true /\
  UR5.model_value (PyInt 254) <> UR5.model_value (PyInt 255).
Proof. apply (model_value_strictly_increasing 254 255); lia. Defined.

(** X15: a NaN is the only value that passes the guard of
    [set_gripper_openning] and leaves the joint range.  With a gripper and
    a joint at index 3, for every int or float that passes the guard and
    is not a NaN, the method returns and the value at index 3 of the array
    it sends with [SetDesired] lies in [0, 0.715584844]. *)
Theorem set_gripper_openning_sends_joint_in_range (r : UR5_Robot) (v : pynum) :
  _has_gripper r = true ->
  py_lt v (PyInt 0) || py_gt v (PyInt 255) = false ->
  v <> PyFloat nan ->
  (3 < length (DOFValues r))%nat ->
  exists (sent : list float) (x : float),
    UR5.set_gripper_openning v r =
      (Return tt,
       log_calls [CGetDOFValues; CGetController; CSetDesired sent;
                  CWaitForController 0; CSleep 2] r) /\
    sent !! 3%nat = Some x /\
    (0 <=? x)%float = true /\
    (x <=? 0.715584844)%float = true.
Proof.
  intros Hg [Hlt Hgt]%orb_false_elim Hnan Hlen.
  exists (<[3%nat := UR5.model_value v]> (DOFValues r)), (UR5.model_value v).
  split; [now apply set_gripper_openning_run|].
  split; [now apply list_lookup_insert_eq|].
  destruct (accepted_in_joint_range_or_nan v Hlt Hgt) as [Hin|Hv];
    [|contradiction].
  now apply andb_prop in Hin.
Qed.

Lemma set_gripper_openning_sends_joint_in_range_witness :
  exists (sent : list float) (x : float),
    UR5.set_gripper_openning (PyFloat 127.5) hardware_robot =
      (Return tt,
       log_calls [CGetDOFValues; CGetController; CSetDesired sent;
                  CWaitForController 0; CSleep 2] hardware_robot) /\
    sent !! 3%nat = Some x /\
    (0 <=? x)%float = true /\
    (x <=? 0.715584844)%float = true.
Proof.
  apply (set_gripper_openning_sends_joint_in_range hardware_robot
           (PyFloat 127.5)).
  - reflexivity.
  - reflexivity.
  - intros H.
    assert (E : Leibniz.eqb (to_float (PyFloat 127.5)) (to_float (PyFloat nan))
                = true) by (apply Leibniz.eqb_spec; now rewrite H).
    vm_compute in E. discriminate E.
  - vm_compute. lia.
Defined.

(** X16: the targets of the integer commands and the two state tests
    agree at the ends and nowhere else: among the commands 0..255, the
    model value passes the fully-closed test exactly for 255 and the
    fully-open test exactly for 0. *)
Theorem command_targets_and_state_tests (z : Z) :
  0 <= z <= 255 ->
  (fully_closed_test (UR5.model_value (PyInt z)) = true <-> z = 255) /\
  (fully_open_test (UR5.model_value (PyInt z)) = true <-> z = 0).
Proof.
  intros Hz.
  assert (H : Bool.eqb (fully_closed_test (UR5.model_value (PyInt z))) (z =? 255)
              && Bool.eqb (fully_open_test (UR5.model_value (PyInt z))) (z =? 0)
              = true).
  { revert z Hz. apply forall_int_commands. vm_compute. reflexivity. }
  apply andb_prop in H as [Hc Ho].
  apply Bool.eqb_prop in Hc, Ho. rewrite Hc, Ho. split; apply Z.eqb_eq.
Qed.

Lemma command_targets_and_state_tests_witness :
  (fully_closed_test (UR5.model_value (PyInt 254)) = true <-> 254 = 255) /\
  (fully_open_test (UR5.model_value (PyInt 254)) = true <-> 254 = 0).
Proof. apply (command_targets_and_state_tests 254). lia. Defined.

(** ** Moves without execution, one after the other *)

(** X17: with a gripper and a joint at index 3, moves without execution
    overwrite each other: after [close_gripper(execute=False)] then
    [open_gripper(kinbody, execute=False)] the joint values are those
    after the opening alone, after the opening then the closing they are
    those after the closing alone, and a repeated move changes nothing
    more. *)
Theorem moves_without_execution_overwrite
    (r : UR5_Robot) (kinbody : option KinBody) :
  _has_gripper r = true ->
  (3 < length (DOFValues r))%nat ->
  DOFValues (snd ((UR5.close_gripper false ;;;
                   UR5.open_gripper kinbody false) r))
    = DOFValues (snd (UR5.open_gripper kinbody false r)) /\
  DOFValues (snd ((UR5.open_gripper kinbody false ;;;
                   UR5.close_gripper false) r))
    = DOFValues (snd (UR5.close_gripper false r)) /\
  DOFValues (snd ((UR5.open_gripper kinbody false ;;;
                   UR5.open_gripper kinbody false) r))
    = DOFValues (snd (UR5.open_gripper kinbody false r)) /\
  DOFValues (snd ((UR5.close_gripper false ;;; UR5.close_gripper false) r))
    = DOFValues (snd (UR5.close_gripper false r)).
Proof.
  intros Hg Hlen. unfold bind.
  rewrite (open_gripper_no_execute_run r kinbody Hg Hlen).
  rewrite (close_gripper_no_execute_run r Hg Hlen).
  set (ro := with_DOFValues (<[3%nat := 0%float]> _) _).
  set (rc := with_DOFValues (<[3%nat := _OPENRAVE_GRIPPER_MAX_VALUE]> _) _).
  assert (Hlo : (3 < length (DOFValues ro))%nat)
    by (simpl; now rewrite length_insert).
  assert (Hlc : (3 < length (DOFValues rc))%nat)
    by (simpl; now rewrite length_insert).
  rewrite (open_gripper_no_execute_run rc kinbody Hg Hlc).
  rewrite (open_gripper_no_execute_run ro kinbody Hg Hlo).
  rewrite (close_gripper_no_execute_run ro Hg Hlo).
  rewrite (close_gripper_no_execute_run rc Hg Hlc).
  simpl. rewrite !list_insert_insert_eq. repeat split.
Qed.

Lemma moves_without_execution_overwrite_witness :
  DOFValues (snd ((UR5.close_gripper false ;;;
                   UR5.open_gripper None false) hardware_robot))
    = DOFValues (snd (UR5.open_gripper None false hardware_robot)).
Proof.
  apply (moves_without_execution_overwrite hardware_robot None);
    [reflexivity | vm_compute; lia].
Defined.
